(** * DataCleaner: a shallow embedding of [data_cleaner.py] and [main.py]

    The per-value parsers, the symmetric cipher and the column engine of
    the data-cleaning toolkit, written as Rocq functions over

    - text as lists of Unicode code points,
    - cell values as a small universe of Python scalars,
    - DataFrames as objects in a store, so that [df.copy()], the in-place
      [df[col] = ...] and the rebinding [df = df.drop(...)] keep their
      aliasing behaviour,
    - [print] as an append to a standard-output log,
    - Python exceptions as the [Raise] branch of a result type.
*)

From Stdlib Require Import ZArith List Bool Lia String Ascii DecimalString.
From stdpp Require Import gmap list.

Set Default Proof Using "Type".

(* ================================================================== *)
(** ** Text *)
(* ================================================================== *)

(** A Python [str] is a sequence of code points. *)
Abbreviation text := (list Z).

(** Literals: the code points of an ASCII Rocq string. *)
Definition txt (s : string) : text :=
  map (fun a => Z.of_nat (nat_of_ascii a)) (list_ascii_of_string s).

(** [c in s] for a one-character [c]. *)
Definition contains (c : Z) (s : text) : bool := existsb (Z.eqb c) s.

(** [s.startswith(prefix)] *)
Fixpoint startswith (s prefix : text) {struct prefix} : bool :=
  match prefix, s with
  | [], _ => true
  | p :: prefix', c :: s' => (c =? p)%Z && startswith s' prefix'
  | _ :: _, [] => false
  end.

(** [s.lstrip(...)] and [s.rstrip(...)], for the set of characters [p]. *)
Fixpoint lstrip_by (p : Z -> bool) (s : text) : text :=
  match s with
  | [] => []
  | c :: s' => if p c then lstrip_by p s' else s
  end.

Definition rstrip_by (p : Z -> bool) (s : text) : text :=
  reverse (lstrip_by p (reverse s)).

(** The characters [str.strip()] removes: CPython's [Py_UNICODE_ISSPACE]. *)
Definition isspace (c : Z) : bool :=
  ((9 <=? c) && (c <=? 13) || (28 <=? c) && (c <=? 32) ||
   (c =? 133) || (c =? 160) || (c =? 5760) ||
   (8192 <=? c) && (c <=? 8202) || (c =? 8232) || (c =? 8233) ||
   (c =? 8239) || (c =? 8287) || (c =? 12288))%Z.

(** [s.strip()] *)
Definition strip (s : text) : text := rstrip_by isspace (lstrip_by isspace s).

(** [s.split(sep)] for a one-character separator: never an empty list. *)
Fixpoint split_on (sep : Z) (s : text) : list text :=
  match s with
  | [] => [[]]
  | c :: s' =>
      if (c =? sep)%Z then [] :: split_on sep s'
      else match split_on sep s' with
           | [] => [[c]]
           | w :: ws => (c :: w) :: ws
           end
  end.

(** [s.replace(old, '')] with a non-empty [old]:
    every non-overlapping occurrence is removed, scanning from the left.
    [skip] counts the characters of the occurrence still to be dropped. *)
Fixpoint remove_from (old : text) (skip : nat) (s : text) : text :=
  match s with
  | [] => []
  | c :: s' =>
      match skip with
      | S k => remove_from old k s'
      | O =>
          if startswith s old then remove_from old (length old - 1) s'
          else c :: remove_from old 0 s'
      end
  end.

Definition remove_all (old s : text) : text := remove_from old 0 s.

(** [s.rstrip('/')] *)
Definition rstrip_slash (s : text) : text := rstrip_by (Z.eqb 47) s.

(** [str(n)] for an [int]. *)
Definition str_of_int (n : Z) : text := txt (NilZero.string_of_int (Z.to_int n)).

(* ================================================================== *)
(** ** Cell values, exceptions *)
(* ================================================================== *)

(** Floating-point arithmetic is left uninterpreted: a [float] produced
    by the parsers is the term that computes it. *)
Inductive pyfloat : Type :=
| FParse (lit : text)          (* float(lit), for a well-formed literal *)
| FDiv (x : pyfloat) (d : Z)   (* x / d *)
| FMul (x y : pyfloat)         (* x * y *)
| FPow10 (x : pyfloat).        (* 10 ** x *)

(** What a cell of a DataFrame holds.  [VNone] is the parsers' missing
    marker; [VNaN] stands for the other values [pd.isna] accepts.  (In a
    numeric column pandas may keep a [None] that a parser returned as
    NaN; a cell here keeps what the parser returned, and both are
    missing.) *)
Inductive value : Type :=
| VNone
| VNaN
| VStr (s : text)
| VInt (n : Z)
| VFloat (x : pyfloat).

(** [pd.isna(value)] on a scalar. *)
Definition isna (v : value) : bool :=
  match v with
  | VNone | VNaN => true
  | _ => false
  end.

(** The exception classes met in this code.  [ReferenceError] is only
    raised by [deref], on a reference without an object. *)
Inductive exn_class : Type :=
| TypeError | ValueError | AttributeError | KeyError | IndexError
| OverflowError | ReferenceError.

(** An instance of a subclass of [Exception], with its [str(e)]. *)
Record exn : Type := Exn { exn_class_of : exn_class; exn_msg : text }.

Inductive result (A : Type) : Type :=
| Return (a : A)
| Raise (e : exn).
Arguments Return {A} a.
Arguments Raise {A} e.

Definition rbind {A B} (r : result A) (k : A -> result B) : result B :=
  match r with
  | Return a => k a
  | Raise e => Raise e
  end.

Declare Scope result_scope.
Delimit Scope result_scope with result.
Notation "x <- r ;; k" := (rbind r (fun x => k))
  (at level 100, r at next level, right associativity) : result_scope.

(** What the interpreter supplies and this development does not
    interpret: the Unicode character database and the rendering and
    range of floats. *)
Record runtime : Type := Runtime {
  isdigit : Z -> bool;             (* str.isdigit, on one character *)
  isdecimal : Z -> bool;           (* the digits float() converts *)
  lower : text -> text;            (* str.lower *)
  upper_char : Z -> text;          (* str.upper, on one character *)
  float_repr : pyfloat -> text;    (* str(x) for a float *)
  pow10_overflows : pyfloat -> bool (* 10 ** x raises OverflowError *)
}.

Section Parsers.

Context (rt : runtime).

(** [s.upper()]: CPython maps each character on its own. *)
Definition upper (s : text) : text := flat_map (upper_char rt) s.

(** [str(value)] *)
Definition py_str (v : value) : text :=
  match v with
  | VNone => txt "None"
  | VNaN => txt "nan"
  | VStr s => s
  | VInt n => str_of_int n
  | VFloat x => float_repr rt x
  end.

Definition is_dot (c : Z) : bool := (c =? 46)%Z.
Definition is_minus (c : Z) : bool := (c =? 45)%Z.

(** The literals [float] accepts among the texts made of digit
    characters, ['.'] and ['-'], the only ones the parsers pass to it:
    an optional leading sign, then decimal digits around at most one
    point, with one digit at least. *)
Definition float_literal (s : text) : bool :=
  let body := match s with
              | c :: r => if is_minus c then r else s
              | [] => []
              end in
  forallb (fun c => isdecimal rt c || is_dot c) body
  && (length (List.filter is_dot body) <=? 1)%nat
  && existsb (isdecimal rt) body.

(** [float(s)] *)
Definition py_float (s : text) : result pyfloat :=
  if float_literal s then Return (FParse s)
  else Raise (Exn ValueError
                (txt "could not convert string to float: '" ++ s ++ txt "'")).

(** The generator [char for char in s if char.isdigit() or char == '.'] *)
Definition digits_and_dots (s : text) : text :=
  List.filter (fun char => isdigit rt char || is_dot char) s.

(** *** DataCleaner.clean_phone_numbers.clean_phone *)
Definition clean_phone (min_digits : Z) (phone : value) : result value :=
  if isna phone then Return VNone
  else
    let cleaned := List.filter (isdigit rt) (py_str phone) in
    if (min_digits <=? Z.of_nat (length cleaned))%Z
    then Return (VStr cleaned) else Return VNone.

(** *** DataCleaner.clean_monetary_values.clean_amount *)
Definition clean_amount (v : value) : result value :=
  if isna v then Return VNone
  else
    let cleaned := digits_and_dots (py_str v) in
    match cleaned with
    | [] => Return VNone
    | _ :: _ => (x <- py_float cleaned ;; Return (VFloat x))%result
    end.

(** *** DataCleaner.clean_percentages.clean_percentage *)
Definition clean_percentage (v : value) : result value :=
  if isna v then Return VNone
  else
    let cleaned := digits_and_dots (py_str v) in
    match cleaned with
    | [] => Return VNone
    | _ :: _ => (x <- py_float cleaned ;; Return (VFloat (FDiv x 100)))%result
    end.

(** *** DataCleaner.clean_emails.clean_email *)
Definition clean_email (email : value) : result value :=
  if isna email then Return VNone
  else
    let cleaned := lower rt (strip (py_str email)) in
    if contains 64 cleaned then Return (VStr cleaned) else Return VNone.

(** *** DataCleaner.clean_urls.clean_url *)
Definition url_prefixes : list text :=
  [txt "http://"; txt "https://"; txt "www."].

(** One turn of [for prefix in self.url_prefixes]. *)
Definition strip_prefix (cleaned prefix : text) : text :=
  if startswith cleaned prefix then drop (length prefix) cleaned else cleaned.

Definition clean_url (url : value) : result value :=
  if isna url then Return VNone
  else
    let cleaned := lower rt (strip (py_str url)) in
    let cleaned := fold_left strip_prefix url_prefixes cleaned in
    match cleaned with
    | [] => Return VNone
    | _ :: _ => Return (VStr (rstrip_slash cleaned))
    end.

(** *** DataCleaner.clean_scientific_notation.clean_scientific

    The body of the [try] is run in [result]; the bare [except] turns
    every exception into [None]. *)
Definition scientific_try (str_val : text) : result value :=
  (match split_on 101 str_val with
   | [base; exp] =>
       base <- py_float (digits_and_dots base) ;;
       exp <- py_float (List.filter (fun c => isdigit rt c || is_minus c) exp) ;;
       if pow10_overflows rt exp
       then Raise (Exn OverflowError (txt "(34, 'Numerical result out of range')"))
       else Return (VFloat (FMul base (FPow10 exp)))
   | [_] =>
       Raise (Exn ValueError (txt "not enough values to unpack (expected 2, got 1)"))
   | _ =>
       Raise (Exn ValueError (txt "too many values to unpack (expected 2)"))
   end)%result.

Definition clean_scientific (v : value) : result value :=
  if isna v then Return VNone
  else
    let str_val := lower rt (py_str v) in
    if contains 101 str_val then
      match scientific_try str_val with
      | Return r => Return r
      | Raise _ => Return VNone
      end
    else
      let cleaned := digits_and_dots str_val in
      match cleaned with
      | [] => Return VNone
      | _ :: _ => (x <- py_float cleaned ;; Return (VFloat x))%result
      end.

End Parsers.

(* ================================================================== *)
(** ** Roman numerals and the cipher *)
(* ================================================================== *)

(** [self.roman_values], the dict built by [__init__]. *)
Definition roman_values : gmap Z Z :=
  list_to_map [(73, 1); (86, 5); (88, 10); (76, 50);
               (67, 100); (68, 500); (77, 1000)]%Z.

(** [self.roman_values[c]] *)
Definition roman_getitem (c : Z) : result Z :=
  match roman_values !! c with
  | Some v => Return v
  | None => Raise (Exn KeyError (txt "'" ++ [c] ++ txt "'"))
  end.

(** [s[i]] for a non-negative index. *)
Definition char_at (s : text) (i : nat) : result Z :=
  match s !! i with
  | Some c => Return c
  | None => Raise (Exn IndexError (txt "string index out of range"))
  end.

(** The body of [for i in range(len(roman))]. *)
Definition roman_body (roman : text) (acc : Z) (i : nat) : result Z :=
  (next_larger <-
     (if (i + 1 <? length roman)%nat then
        ci <- char_at roman i ;;
        vi <- roman_getitem ci ;;
        cn <- char_at roman (i + 1) ;;
        vn <- roman_getitem cn ;;
        Return (vi <? vn)%Z
      else Return false) ;;
   ci <- char_at roman i ;;
   vi <- roman_getitem ci ;;
   Return (if next_larger : bool then acc - vi else acc + vi)%Z)%result.

(** A [for] loop over a list of indices, threading the accumulator. *)
Fixpoint for_range (body : Z -> nat -> result Z) (idxs : list nat) (acc : Z)
  : result Z :=
  match idxs with
  | [] => Return acc
  | i :: rest => (acc' <- body acc i ;; for_range body rest acc')%result
  end.

(** [char in self.roman_values] *)
Definition in_roman_values (char : Z) : bool :=
  bool_decide (is_Some (roman_values !! char)).

(** [sum(ord(c) for c in code_name)] *)
Definition numeric_key (code_name : text) : Z := foldr Z.add 0%Z code_name.

Section Cipher.

Context (rt : runtime).

(** *** DataCleaner.clean_roman_numerals.clean_roman *)
Definition clean_roman (roman_str : value) : result value :=
  if isna roman_str then Return VNone
  else
    let roman := upper rt (strip (py_str rt roman_str)) in
    if negb (forallb in_roman_values roman) then Return VNone
    else
      (r <- for_range (roman_body roman) (seq 0 (length roman)) 0%Z ;;
       Return (VInt r))%result.

(** *** DataCleaner._encrypt_value

    [chr] is applied to a number in [0, 128) and cannot fail. *)
Definition _encrypt_value (v : value) (code_name : text) : result value :=
  if isna v then Return VNone
  else
    let key := numeric_key code_name in
    Return (VStr (map (fun char => ((char + key) mod 128)%Z) (py_str rt v))).

(** *** DataCleaner._decrypt_value *)
Definition _decrypt_value (v : value) (code_name : text) : result value :=
  if isna v then Return VNone
  else
    let key := numeric_key code_name in
    Return (VStr (map (fun char => ((char - key) mod 128)%Z) (py_str rt v))).

End Cipher.

(** The Unicode tables cut down to ASCII, to run the parsers on cells
    that hold ASCII text.  On ASCII this is what CPython does; beyond
    code point 127 nothing is a digit and case mapping is the identity.
    The two float fields are never consulted on such cells ([py_str] of
    a text is the text, and only [clean_scientific] raises ten to a
    power); the general statements below hold for every [runtime]. *)
Definition ascii_digit (c : Z) : bool := ((48 <=? c) && (c <=? 57))%Z.
Definition ascii_lower (c : Z) : Z :=
  if ((65 <=? c) && (c <=? 90))%Z then (c + 32)%Z else c.
Definition ascii_upper (c : Z) : Z :=
  if ((97 <=? c) && (c <=? 122))%Z then (c - 32)%Z else c.

Definition ascii_runtime : runtime :=
  {| isdigit := ascii_digit;
     isdecimal := ascii_digit;
     lower := map ascii_lower;
     upper_char := fun c => [ascii_upper c];
     float_repr := fun _ => txt "0.0";
     pow10_overflows := fun _ => false |}.

(* ================================================================== *)
(** ** DataFrames in a store *)
(* ================================================================== *)

(** A DataFrame: an index of [nrows] rows and the labelled columns in
    insertion order. *)
Record frame : Type := Frame {
  nrows : nat;
  columns : list (text * list value)
}.

(** [df.columns] *)
Definition labels (f : frame) : list text := (columns f).*1.

(** The values of the column labelled [col]. *)
Fixpoint column (col : text) (cs : list (text * list value))
  : option (list value) :=
  match cs with
  | [] => None
  | (n, vs) :: cs' => if decide (n = col) then Some vs else column col cs'
  end.

(** [df[col] = vs]: in place for a label the frame has, a new last
    column otherwise. *)
Definition set_column (col : text) (vs : list value)
  (cs : list (text * list value)) : list (text * list value) :=
  if decide (col ∈ cs.*1)
  then map (fun c => if decide (c.1 = col) then (c.1, vs) else c) cs
  else cs ++ [(col, vs)].

(** The columns of [df.drop(col, axis=1)]. *)
Definition drop_column (col : text) (cs : list (text * list value))
  : list (text * list value) :=
  List.filter (fun c => negb (bool_decide (c.1 = col))) cs.

(** Every column has one value per row. *)
Definition frame_wf (f : frame) : Prop :=
  Forall (fun c => length c.2 = nrows f) (columns f).

Definition loc := nat.

(** The objects a caller may pass where the signatures say
    [pd.DataFrame] and [List[str]]. *)
Inductive pyobj : Type :=
| PFrame (l : loc)
| PList (items : list text)
| PNone.

(** The store of DataFrame objects and what has been printed. *)
Record state : Type := State {
  frames : gmap loc frame;
  stdout : list text
}.

(** Computations: they read and write the state and return or raise. *)
Definition M (A : Type) : Type := state -> result A * state.

Definition ret {A} (a : A) : M A := fun st => (Return a, st).

Definition raise {A} (cls : exn_class) (msg : string) : M A :=
  fun st => (Raise (Exn cls (txt msg)), st).

Definition bind {A B} (m : M A) (k : A -> M B) : M B :=
  fun st =>
    match m st with
    | (Return a, st') => k a st'
    | (Raise e, st') => (Raise e, st')
    end.

Definition lift {A} (r : result A) : M A := fun st => (r, st).

(** [try: m except Exception as e: handler e] *)
Definition try_except {A} (m : M A) (handler : exn -> M A) : M A :=
  fun st =>
    match m st with
    | (Return a, st') => (Return a, st')
    | (Raise e, st') => handler e st'
    end.

(** [print(line)] *)
Definition print (line : text) : M unit :=
  fun st => (Return tt, State (frames st) (stdout st ++ [line])).

Declare Scope M_scope.
Delimit Scope M_scope with M.
Notation "x <- m ;; k" := (bind m (fun x => k))
  (at level 100, m at next level, right associativity) : M_scope.
Notation "m ;; k" := (bind m (fun _ => k))
  (at level 100, right associativity) : M_scope.

(** A [for] loop over [xs] whose body rebinds the loop state [a]. *)
Fixpoint for_each {A B} (body : B -> A -> M B) (xs : list A) (b : B) : M B :=
  match xs with
  | [] => ret b
  | x :: xs' => (b' <- body b x ;; for_each body xs' b')%M
  end.

(** Reading the frame behind a reference.  A reference that a caller
    holds always has its object; the [Raise] branch only makes the
    function total. *)
Definition deref (l : loc) : M frame :=
  fun st =>
    match frames st !! l with
    | Some f => (Return f, st)
    | None => (Raise (Exn ReferenceError (txt "no such DataFrame")), st)
    end.

(** A new object holding [f]. *)
Definition alloc (f : frame) : M loc :=
  fun st =>
    let l := fresh (dom (frames st)) in
    (Return l, State (<[l := f]> (frames st)) (stdout st)).

(** Overwriting the frame behind a reference. *)
Definition store (l : loc) (f : frame) : M unit :=
  fun st => (Return tt, State (<[l := f]> (frames st)) (stdout st)).

(** [series.apply(func)]: [func] on each value in row order. *)
Fixpoint series_apply (func : value -> result value) (vs : list value)
  : result (list value) :=
  match vs with
  | [] => Return []
  | v :: vs' =>
      (r <- func v ;; rs <- series_apply func vs' ;; Return (r :: rs))%result
  end.

(** *** Method calls, dispatched on the receiver *)

(** [obj.copy()] *)
Definition py_copy (obj : pyobj) : M pyobj :=
  match obj with
  | PFrame l => (f <- deref l ;; l' <- alloc f ;; ret (PFrame l'))%M
  | PList items => ret (PList items)
  | PNone => raise AttributeError "'NoneType' object has no attribute 'copy'"
  end.

(** The items [for x in obj] goes through. *)
Definition py_iter (obj : pyobj) : M (list text) :=
  match obj with
  | PFrame l => (f <- deref l ;; ret (labels f))%M
  | PList items => ret items
  | PNone => raise TypeError "'NoneType' object is not iterable"
  end.

(** [obj.columns] *)
Definition py_columns (obj : pyobj) : M (list text) :=
  match obj with
  | PFrame l => (f <- deref l ;; ret (labels f))%M
  | PList _ => raise AttributeError "'list' object has no attribute 'columns'"
  | PNone => raise AttributeError "'NoneType' object has no attribute 'columns'"
  end.

(** [obj[col]] *)
Definition py_getitem (obj : pyobj) (col : text) : M (list value) :=
  match obj with
  | PFrame l =>
      (f <- deref l ;;
       match column col (columns f) with
       | Some vs => ret vs
       | None => lift (Raise (Exn KeyError (txt "'" ++ col ++ txt "'")))
       end)%M
  | PList _ => raise TypeError "list indices must be integers or slices, not str"
  | PNone => raise TypeError "'NoneType' object is not subscriptable"
  end.

(** [obj[col] = vs] *)
Definition py_setitem (obj : pyobj) (col : text) (vs : list value) : M unit :=
  match obj with
  | PFrame l =>
      (f <- deref l ;;
       store l (Frame (nrows f) (set_column col vs (columns f))))%M
  | PList _ => raise TypeError "list indices must be integers or slices, not str"
  | PNone => raise TypeError "'NoneType' object does not support item assignment"
  end.

(** [obj.drop(col, axis=1)] *)
Definition py_drop (obj : pyobj) (col : text) : M pyobj :=
  match obj with
  | PFrame l =>
      (f <- deref l ;;
       if decide (col ∈ labels f)
       then l' <- alloc (Frame (nrows f) (drop_column col (columns f))) ;;
            ret (PFrame l')
       else lift (Raise (Exn KeyError
                           ([34%Z] ++ txt "['" ++ col
                            ++ txt "'] not found in axis" ++ [34%Z]))))%M
  | PList _ => raise AttributeError "'list' object has no attribute 'drop'"
  | PNone => raise AttributeError "'NoneType' object has no attribute 'drop'"
  end.

(* ================================================================== *)
(** ** The column engine and the public operations *)
(* ================================================================== *)

(** *** DataCleaner._validate_inputs *)
Definition _validate_inputs (df col_names : pyobj) : M unit :=
  match df with
  | PFrame _ =>
      match col_names with
      | PList [] => raise ValueError "Column names list cannot be empty"
      | PList (_ :: _) => ret tt
      | _ => raise TypeError "Column names must be provided as a list"
      end
  | _ => raise TypeError "Input must be a pandas DataFrame"
  end.

(** The body of the loop of [_process_columns], [try] included. *)
Definition process_column (cleaning_func : value -> result value)
  (df : pyobj) (col : text) : M unit :=
  try_except
    (cols <- py_columns df ;;
     if decide (col ∈ cols) then
       series <- py_getitem df col ;;
       cleaned <- lift (series_apply cleaning_func series) ;;
       py_setitem df col cleaned
     else
       print (txt "Warning: Column '" ++ col ++ txt "' not found in DataFrame"))%M
    (fun e =>
       print (txt "Error processing column '" ++ col ++ txt "': " ++ exn_msg e)).

(** *** DataCleaner._process_columns *)
Definition _process_columns (df col_names : pyobj)
  (cleaning_func : value -> result value) : M pyobj :=
  (_validate_inputs df col_names ;;
   df <- py_copy df ;;
   cols <- py_iter col_names ;;
   for_each (fun _ col => process_column cleaning_func df col) cols tt ;;
   ret df)%M.

Section Operations.

Context (rt : runtime).

Definition clean_phone_numbers (df col_names : pyobj) (min_digits : Z) :=
  _process_columns df col_names (clean_phone rt min_digits).

Definition clean_monetary_values (df col_names : pyobj) :=
  _process_columns df col_names (clean_amount rt).

Definition clean_percentages (df col_names : pyobj) :=
  _process_columns df col_names (clean_percentage rt).

Definition clean_emails (df col_names : pyobj) :=
  _process_columns df col_names (clean_email rt).

Definition clean_urls (df col_names : pyobj) :=
  _process_columns df col_names (clean_url rt).

Definition clean_scientific_notation (df col_names : pyobj) :=
  _process_columns df col_names (clean_scientific rt).

Definition clean_roman_numerals (df col_names : pyobj) :=
  _process_columns df col_names (clean_roman rt).

(** The body of the loop of the two cipher operations: [rename] gives
    the new label, [cipher] the per-value function; the result is the
    frame the name [df] is bound to afterwards. *)
Definition cipher_column (rename : text -> text)
  (cipher : value -> result value) (df : pyobj) (col : text) : M pyobj :=
  (cols <- py_columns df ;;
   if decide (col ∈ cols) then
     let new_col := rename col in
     series <- py_getitem df col ;;
     changed <- lift (series_apply cipher series) ;;
     py_setitem df new_col changed ;;
     py_drop df col
   else
     print (txt "Warning: Column '" ++ col ++ txt "' not found") ;;
     ret df)%M.

(** *** DataCleaner.encrypt_columns *)
Definition encrypt_columns (df col_names : pyobj) (code_name : text)
  : M pyobj :=
  (df <- py_copy df ;;
   cols <- py_iter col_names ;;
   for_each
     (cipher_column (fun col => col ++ txt "_encrypted")
                    (fun x => _encrypt_value rt x code_name))
     cols df)%M.

(** *** DataCleaner.decrypt_columns *)
Definition decrypt_columns (df col_names : pyobj) (code_name : text)
  : M pyobj :=
  (df <- py_copy df ;;
   cols <- py_iter col_names ;;
   for_each
     (cipher_column (fun col => remove_all (txt "_encrypted") col)
                    (fun x => _decrypt_value rt x code_name))
     cols df)%M.

End Operations.

(* ================================================================== *)
(** ** main.py *)
(* ================================================================== *)

Module Main.

Section Main.

Context (rt : runtime).

(** The argument checks both functions of [main.py] start with. *)
Definition validate (df col_names : pyobj) : M unit :=
  match df with
  | PFrame _ =>
      match col_names with
      | PList [] => raise ValueError "col_names cannot be empty"
      | PList (_ :: _) => ret tt
      | _ => raise TypeError "col_names must be a list"
      end
  | _ => raise TypeError "Input must be a pandas DataFrame"
  end.

(** [clean_phone_numbers.extract_digits]: the parser inside its own
    [try], which prints and returns [None]. *)
Definition extract_digits (phone : value) : M value :=
  try_except
    (lift (clean_phone rt 9 phone))
    (fun e =>
       print (txt "Error processing value " ++ py_str rt phone ++ txt ": "
              ++ exn_msg e) ;;
       ret VNone)%M.

(** [clean_monetary_values.extract_numbers] *)
Definition extract_numbers (v : value) : M value :=
  try_except
    (lift (clean_amount rt v))
    (fun e =>
       print (txt "Error processing value " ++ py_str rt v ++ txt ": "
              ++ exn_msg e) ;;
       ret VNone)%M.

(** [series.apply(func)] for a [func] that prints. *)
Fixpoint series_applyM (func : value -> M value) (vs : list value)
  : M (list value) :=
  match vs with
  | [] => ret []
  | v :: vs' =>
      (r <- func v ;; rs <- series_applyM func vs' ;; ret (r :: rs))%M
  end.

(** The loop over the columns, the same in both functions. *)
Definition process_column (func : value -> M value) (df : pyobj) (col : text)
  : M unit :=
  try_except
    (cols <- py_columns df ;;
     if decide (col ∈ cols) then
       series <- py_getitem df col ;;
       cleaned <- series_applyM func series ;;
       py_setitem df col cleaned
     else
       print (txt "Warning: Column '" ++ col ++ txt "' not found in DataFrame"))%M
    (fun e =>
       print (txt "Error processing column " ++ col ++ txt ": " ++ exn_msg e)).

Definition clean_with (func : value -> M value) (df col_names : pyobj)
  : M pyobj :=
  (validate df col_names ;;
   df <- py_copy df ;;
   cols <- py_iter col_names ;;
   for_each (fun _ col => process_column func df col) cols tt ;;
   ret df)%M.

Definition clean_phone_numbers := clean_with extract_digits.
Definition clean_monetary_values := clean_with extract_numbers.

End Main.

End Main.

(* ================================================================== *)
(** ** The specification's wording, to compare the code with *)
(* ================================================================== *)

(** The seven symbols and their values, as a table. *)
Definition roman_symbols : text := txt "IVXLCDM".

Definition is_roman_symbol (c : Z) : bool := contains c roman_symbols.

Definition symbol_value (c : Z) : Z :=
  (if c =? 73 then 1 else if c =? 86 then 5 else if c =? 88 then 10
   else if c =? 76 then 50 else if c =? 67 then 100
   else if c =? 68 then 500 else if c =? 77 then 1000 else 0)%Z.

(** Scanning left to right, a value is subtracted when the next one is
    strictly greater and added otherwise. *)
Fixpoint subtractive_sum (vs : list Z) : Z :=
  match vs with
  | [] => 0
  | v :: rest =>
      (match rest with
       | next :: _ => if v <? next then - v else v
       | [] => v
       end + subtractive_sum rest)%Z
  end.

(** [t'] is [t] without the prefix [p] when [t] starts with it, and [t]
    itself when it does not. *)
Inductive without_prefix (p : text) : text -> text -> Prop :=
| wp_removed (r : text) : without_prefix p (p ++ r) r
| wp_kept (t : text) : (forall r, t <> p ++ r) -> without_prefix p t t.

(** [r] is [t] without its trailing ['/'] characters. *)
Inductive without_trailing_slashes : text -> text -> Prop :=
| wts_intro (r : text) (n : nat) :
    last r <> Some 47%Z -> without_trailing_slashes (r ++ replicate n 47%Z) r.

(** The frame property of the column engine, for a call on the table [T]
    stored at [l] with the selector [C] and the per-value function [P]:
    the call returns a reference [l'] to an object that did not exist
    before; every object of the store that existed before, [T] included,
    is as it was; the new table has the labels of [T] in the same order,
    its columns outside [C] are those of [T], and it has the row count of
    [T] in every column. *)
Definition process_frame_property (st : state) (l : loc) (T : frame)
  (C : list text) (P : value -> result value) : Prop :=
  exists (l' : loc) (st' : state) (T' : frame),
    _process_columns (PFrame l) (PList C) P st = (Return (PFrame l'), st')
    /\ frames st !! l' = None
    /\ (forall k, k <> l' -> frames st' !! k = frames st !! k)
    /\ frames st' !! l = Some T
    /\ frames st' !! l' = Some T'
    /\ labels T' = labels T
    /\ (forall col, col ∉ C -> column col (columns T') = column col (columns T))
    /\ nrows T' = nrows T
    /\ frame_wf T'.

(** How the frame [T'] behind the copy relates to the frame [T] it had
    before some columns named in [C] were processed. *)
Definition processed_from (C : list text) (T T' : frame) : Prop :=
  labels T' = labels T
  /\ (forall col, col ∉ C -> column col (columns T') = column col (columns T))
  /\ nrows T' = nrows T
  /\ frame_wf T'.

(** *** Tables to run the operations on *)

Definition rates : frame :=
  Frame 2 [(txt "rate", [VStr (txt "50%"); VStr (txt "1.2.3%")]);
           (txt "site", [VStr (txt "https://www.test.com"); VNone])].

Definition prices : frame :=
  Frame 2 [(txt "price", [VStr (txt "$123.45"); VStr (txt "1.2.3")])].

Definition names : frame :=
  Frame 1 [(txt "name", [VStr (txt "Ada")])].

Definition twice_encrypted : frame :=
  Frame 1 [(txt "name_encrypted_encrypted", [VStr (txt "Ada")])].

(** A store with the single table [T], at reference 0, and nothing
    printed yet. *)
Definition only (T : frame) : state := State {[ 0%nat := T ]} [].

(** The table an operation returned, if it returned one. *)
Definition returned (r : result pyobj * state) : option frame :=
  match r.1 with
  | Return (PFrame l) => frames r.2 !! l
  | _ => None
  end.

(** Encrypting the column [name] twice, then decrypting the column
    this leaves once. *)
Definition encrypt_twice (rt : runtime) : M pyobj :=
  (df <- encrypt_columns rt (PFrame 0%nat) (PList [txt "name"]) (txt "key") ;;
   encrypt_columns rt df (PList [txt "name_encrypted"]) (txt "key"))%M.

Definition encrypt_twice_decrypt_once (rt : runtime) : M pyobj :=
  (df <- encrypt_twice rt ;;
   decrypt_columns rt df (PList [txt "name_encrypted_encrypted"]) (txt "key"))%M.

(** The values a Roman symbol can have, and for each the sum of the
    values below it. *)
Definition symbol_value_ok (v : Z) : Prop :=
  (v = 1 \/ v = 5 \/ v = 10 \/ v = 50 \/ v = 100 \/ v = 500 \/ v = 1000)%Z.

Definition lesser_sum (v : Z) : Z :=
  (if v <=? 1 then 0 else if v <=? 5 then 1 else if v <=? 10 then 6
   else if v <=? 50 then 16 else if v <=? 100 then 66
   else if v <=? 500 then 166 else 666)%Z.






(** What the validation promises of a public operation [op]: a table
    argument that is not a DataFrame and a selector that is not a list
    raise [TypeError], an empty list raises [ValueError], and in each
    case the state is the one the call started in. *)
Definition validates_eagerly (op : pyobj -> pyobj -> M pyobj) : Prop :=
  (forall df col_names st,
      (forall l, df <> PFrame l) ->
      exists msg, op df col_names st = (Raise (Exn TypeError msg), st))
  /\ (forall l col_names st,
      (forall items, col_names <> PList items) ->
      exists msg, op (PFrame l) col_names st = (Raise (Exn TypeError msg), st))
  /\ (forall l st,
      exists msg, op (PFrame l) (PList []) st = (Raise (Exn ValueError msg), st)).

(* ================================================================== *)
(** ** Properties of the parsers *)
(* ================================================================== *)

Section ParserProperties.

Context (rt : runtime).

(** C2. Every parser returns the missing marker [None] on an input that
    [pd.isna] accepts: the phone, money, percentage, scientific-notation,
    Roman-numeral, email and URL parsers, the two per-value cipher
    functions, and the two parsers of [main.py]. *)
Theorem missing_in_missing_out (v : value) (min_digits : Z) (code_name : text)
  (st : state) :
  isna v = true ->
  clean_phone rt min_digits v = Return VNone
  /\ clean_amount rt v = Return VNone
  /\ clean_percentage rt v = Return VNone
  /\ clean_scientific rt v = Return VNone
  /\ clean_roman rt v = Return VNone
  /\ clean_email rt v = Return VNone
  /\ clean_url rt v = Return VNone
  /\ _encrypt_value rt v code_name = Return VNone
  /\ _decrypt_value rt v code_name = Return VNone
  /\ Main.extract_digits rt v st = (Return VNone, st)
  /\ Main.extract_numbers rt v st = (Return VNone, st).
Proof.
  intros Hna.
  unfold clean_phone, clean_amount, clean_percentage, clean_scientific,
    clean_roman, clean_email, clean_url, _encrypt_value, _decrypt_value,
    Main.extract_digits, Main.extract_numbers, try_except, lift,
    clean_phone, clean_amount.
  rewrite Hna. repeat split; reflexivity.
Qed.

Lemma shift_back (key c : Z) :
  (0 <= c < 128)%Z -> (((c + key) mod 128 - key) mod 128 = c)%Z.
Proof.
  intros Hc.
  rewrite Zminus_mod_idemp_l.
  replace (c + key - key)%Z with c by lia.
  apply Z.mod_small. exact Hc.
Qed.

(** C3. Decrypting the encryption of a text whose code points all lie
    in 0..127 with the same key gives the text back. *)
Theorem decrypt_encrypt (v k : text) :
  Forall (fun c => (0 <= c < 128)%Z) v ->
  (x <- _encrypt_value rt (VStr v) k ;; _decrypt_value rt x k)%result
  = Return (VStr v).
Proof.
  intros Hv. cbn. f_equal. f_equal.
  induction Hv as [|c v Hc _ IH]; cbn; [reflexivity|].
  rewrite shift_back by exact Hc. f_equal. exact IH.
Qed.

End ParserProperties.

(** *** The Roman-numeral loop against the subtractive rule *)

Lemma roman_values_lookup (c : Z) :
  roman_values !! c
  = if is_roman_symbol c then Some (symbol_value c) else None.
Proof.
  unfold is_roman_symbol, symbol_value, contains.
  change roman_symbols with [73; 86; 88; 76; 67; 68; 77]%Z.
  cbn [existsb].
  destruct (Z.eqb_spec c 73) as [->|H1]; [reflexivity|].
  destruct (Z.eqb_spec c 86) as [->|H2]; [reflexivity|].
  destruct (Z.eqb_spec c 88) as [->|H3]; [reflexivity|].
  destruct (Z.eqb_spec c 76) as [->|H4]; [reflexivity|].
  destruct (Z.eqb_spec c 67) as [->|H5]; [reflexivity|].
  destruct (Z.eqb_spec c 68) as [->|H6]; [reflexivity|].
  destruct (Z.eqb_spec c 77) as [->|H7]; [reflexivity|].
  cbn [orb]. unfold roman_values.
  cbn [list_to_map foldr uncurry fst snd].
  rewrite !lookup_insert_ne by lia. apply lookup_empty.
Qed.

Lemma in_roman_values_symbol (c : Z) : in_roman_values c = is_roman_symbol c.
Proof.
  unfold in_roman_values. rewrite roman_values_lookup.
  destruct (is_roman_symbol c).
  - apply bool_decide_eq_true. eauto.
  - apply bool_decide_eq_false. intros [x Hx]. discriminate.
Qed.

Lemma roman_getitem_symbol (c : Z) :
  is_roman_symbol c = true -> roman_getitem c = Return (symbol_value c).
Proof.
  intros Hc. unfold roman_getitem. rewrite roman_values_lookup, Hc. reflexivity.
Qed.

Lemma char_at_middle (pre suf : text) (c : Z) :
  char_at (pre ++ c :: suf) (length pre) = Return c.
Proof.
  unfold char_at. rewrite list_lookup_middle by reflexivity. reflexivity.
Qed.

(** One turn of the loop, at the index of [c] in [pre ++ c :: suf]. *)
Lemma roman_body_at (pre suf : text) (c acc : Z) :
  forallb is_roman_symbol (c :: suf) = true ->
  roman_body (pre ++ c :: suf) acc (length pre)
  = Return (acc + match suf with
                  | next :: _ =>
                      if (symbol_value c <? symbol_value next)%Z
                      then - symbol_value c else symbol_value c
                  | [] => symbol_value c
                  end)%Z.
Proof.
  intros Hall. cbn [forallb] in Hall.
  apply andb_true_iff in Hall as [Hc Hsuf].
  unfold roman_body.
  destruct suf as [|next suf'].
  - replace (length pre + 1 <? length (pre ++ [c]))%nat with false
      by (symmetry; apply Nat.ltb_ge; rewrite length_app; cbn; lia).
    cbn [rbind]. rewrite char_at_middle. cbn [rbind].
    rewrite (roman_getitem_symbol c Hc). reflexivity.
  - replace (length pre + 1 <? length (pre ++ c :: next :: suf'))%nat with true
      by (symmetry; apply Nat.ltb_lt; rewrite length_app; cbn; lia).
    cbn [forallb] in Hsuf. apply andb_true_iff in Hsuf as [Hn _].
    rewrite char_at_middle. cbn [rbind].
    rewrite (roman_getitem_symbol c Hc). cbn [rbind].
    replace (length pre + 1)%nat with (length (pre ++ [c]))
      by (rewrite length_app; reflexivity).
    replace (pre ++ c :: next :: suf') with ((pre ++ [c]) ++ next :: suf')
      by (rewrite <- app_assoc; reflexivity).
    rewrite char_at_middle. cbn [rbind].
    rewrite (roman_getitem_symbol next Hn). cbn [rbind].
    destruct (symbol_value c <? symbol_value next)%Z; f_equal; lia.
Qed.

(** The loop from the index [length pre] on adds the subtractive sum of
    what is left of the numeral. *)
Lemma roman_loop_from (suf pre : text) (acc : Z) :
  forallb is_roman_symbol suf = true ->
  for_range (roman_body (pre ++ suf)) (seq (length pre) (length suf)) acc
  = Return (acc + subtractive_sum (map symbol_value suf))%Z.
Proof.
  revert pre acc.
  induction suf as [|c suf IH]; intros pre acc Hall.
  - cbn. f_equal. lia.
  - cbn [length seq for_range].
    rewrite (roman_body_at pre suf c acc Hall). cbn [rbind].
    cbn [forallb] in Hall. apply andb_true_iff in Hall as [_ Hsuf].
    specialize (IH (pre ++ [c])).
    rewrite <- app_assoc in IH. cbn [app] in IH.
    rewrite length_app in IH. cbn [length] in IH.
    replace (length pre + 1)%nat with (S (length pre)) in IH by lia.
    rewrite IH by exact Hsuf.
    f_equal. cbn [map subtractive_sum].
    destruct suf; cbn [map]; lia.
Qed.

Lemma forallb_pointwise {A} (f g : A -> bool) (l : list A) :
  (forall x, f x = g x) -> forallb f l = forallb g l.
Proof.
  intros Hfg. induction l as [|x l IH]; cbn; [reflexivity|].
  rewrite Hfg, IH. reflexivity.
Qed.

Section RomanProperties.

Context (rt : runtime).

(** C7. On a non-missing value the Roman-numeral parser takes the
    textual form, trimmed and upper-cased; it returns [None] when a
    character of that text is not one of I, V, X, L, C, D, M, and
    otherwise the integer obtained by scanning left to right, subtracting
    a symbol's value when the next symbol's value is strictly greater and
    adding it otherwise.  No canonical form is required. *)
Theorem clean_roman_subtractive (v : value) :
  isna v = false ->
  clean_roman rt v
  = let roman := upper rt (strip (py_str rt v)) in
    if forallb is_roman_symbol roman
    then Return (VInt (subtractive_sum (map symbol_value roman)))
    else Return VNone.
Proof.
  intros Hna. unfold clean_roman. rewrite Hna. cbv zeta.
  set (roman := upper rt (strip (py_str rt v))).
  rewrite (forallb_pointwise _ _ roman in_roman_values_symbol).
  destruct (forallb is_roman_symbol roman) eqn:Hall; cbn [negb]; [|reflexivity].
  pose proof (roman_loop_from roman [] 0%Z Hall) as Hloop.
  cbn [app length] in Hloop. rewrite Hloop. reflexivity.
Qed.

(** C10. A non-missing value whose textual form trims to the empty
    string passes the character check vacuously and is parsed as 0. *)
Theorem clean_roman_blank (v : value) :
  isna v = false ->
  strip (py_str rt v) = [] ->
  clean_roman rt v = Return (VInt 0).
Proof.
  intros Hna Hblank. unfold clean_roman. rewrite Hna, Hblank. reflexivity.
Qed.

End RomanProperties.

(** *** The URL parser against the prefix and slash relations *)

Lemma startswith_app (p r : text) : startswith (p ++ r) p = true.
Proof.
  induction p as [|c p IH]; cbn; [reflexivity|].
  rewrite Z.eqb_refl. exact IH.
Qed.

Lemma startswith_inv (p s : text) :
  startswith s p = true -> exists r, s = p ++ r.
Proof.
  revert s. induction p as [|c p IH]; intros s Hs.
  - exists s. reflexivity.
  - destruct s as [|d s]; cbn in Hs; [discriminate|].
    apply andb_true_iff in Hs as [Hd Hs].
    apply Z.eqb_eq in Hd as ->.
    destruct (IH s Hs) as [r ->]. exists r. reflexivity.
Qed.

(** One turn of the loop over the prefixes removes the prefix exactly
    when the text starts with it. *)
Lemma strip_prefix_spec (t p : text) : without_prefix p t (strip_prefix t p).
Proof.
  unfold strip_prefix. destruct (startswith t p) eqn:Hs.
  - destruct (startswith_inv p t Hs) as [r ->].
    rewrite drop_app_length. constructor.
  - constructor. intros r ->. rewrite startswith_app in Hs. discriminate.
Qed.

Lemma lstrip_by_replicate (p : Z -> bool) (c : Z) (n : nat) (s : text) :
  p c = true -> lstrip_by p (replicate n c ++ s) = lstrip_by p s.
Proof.
  intros Hc. induction n as [|n IH]; cbn; [reflexivity|].
  rewrite Hc. exact IH.
Qed.

Lemma lstrip_by_head (p : Z -> bool) (s : text) :
  (forall c, head s = Some c -> p c = false) -> lstrip_by p s = s.
Proof.
  destruct s as [|c s]; cbn; [reflexivity|].
  intros Hhead. rewrite (Hhead c eq_refl). reflexivity.
Qed.

(** [rstrip('/')] removes the trailing run of slashes and nothing else. *)
Lemma rstrip_slash_spec (t r : text) :
  without_trailing_slashes t r -> rstrip_slash t = r.
Proof.
  intros [r' n Hlast]. unfold rstrip_slash, rstrip_by.
  rewrite reverse_app, reverse_replicate.
  rewrite lstrip_by_replicate by reflexivity.
  rewrite lstrip_by_head.
  - apply reverse_involutive.
  - intros c Hc. rewrite head_reverse in Hc.
    apply Z.eqb_neq. intros <-. apply Hlast. exact Hc.
Qed.

Section UrlProperties.

Context (rt : runtime).

(** C6, as the code has it. On a non-missing value the URL parser trims
    and lower-cases the textual form, then goes once through the ordered
    list http://, https://, www. and removes each prefix that the text,
    as left by the turns before, starts with: more than one prefix can
    go.  It returns [None] when nothing is left after the prefixes, and
    the text without its trailing slashes when that text is not empty. *)
Theorem clean_url_prefixes_in_turn (v : value) :
  isna v = false ->
  exists t1 t2 t3 : text,
    without_prefix (txt "http://") (lower rt (strip (py_str rt v))) t1
    /\ without_prefix (txt "https://") t1 t2
    /\ without_prefix (txt "www.") t2 t3
    /\ (t3 = [] -> clean_url rt v = Return VNone)
    /\ (forall r, without_trailing_slashes t3 r -> r <> [] ->
          clean_url rt v = Return (VStr r)).
Proof.
  intros Hna.
  set (t0 := lower rt (strip (py_str rt v))).
  set (t1 := strip_prefix t0 (txt "http://")).
  set (t2 := strip_prefix t1 (txt "https://")).
  set (t3 := strip_prefix t2 (txt "www.")).
  assert (Hrun : clean_url rt v
                 = match t3 with
                   | [] => Return VNone
                   | _ :: _ => Return (VStr (rstrip_slash t3))
                   end).
  { unfold clean_url. rewrite Hna. reflexivity. }
  exists t1, t2, t3. repeat split; try apply strip_prefix_spec.
  - intros Hempty. rewrite Hrun, Hempty. reflexivity.
  - intros r Hr Hne. rewrite Hrun.
    rewrite (rstrip_slash_spec t3 r Hr).
    destruct t3 as [|c t3']; [|reflexivity].
    inversion Hr as [r' n Hlast Heq].
    apply app_eq_nil in Heq as [Hnil _]. congruence.
Qed.

End UrlProperties.

(* ================================================================== *)
(** ** Properties of the column engine *)
(* ================================================================== *)

(** *** Columns of a frame *)

Lemma column_is_Some (col : text) (cs : list (text * list value)) :
  col ∈ cs.*1 -> exists vs, column col cs = Some vs /\ (col, vs) ∈ cs.
Proof.
  induction cs as [|[n vs] cs IH]; cbn; intros Hin.
  - apply elem_of_nil in Hin. contradiction.
  - destruct (decide (n = col)) as [->|Hne].
    + exists vs. split; [reflexivity|]. apply list_elem_of_here.
    + apply elem_of_cons in Hin as [Heq|Hin]; [congruence|].
      destruct (IH Hin) as (ws & Hws & Hmem).
      exists ws. split; [exact Hws|]. apply list_elem_of_further. exact Hmem.
Qed.

Lemma set_column_labels (col : text) (vs : list value)
  (cs : list (text * list value)) :
  col ∈ cs.*1 -> (set_column col vs cs).*1 = cs.*1.
Proof.
  intros Hin. unfold set_column. rewrite decide_True by exact Hin.
  clear Hin. induction cs as [|c cs IH]; cbn; [reflexivity|].
  rewrite IH. destruct (decide (c.1 = col)); reflexivity.
Qed.

Lemma column_map_other (col c : text) (vs : list value)
  (cs : list (text * list value)) :
  c <> col ->
  column c (map (fun x => if decide (x.1 = col) then (x.1, vs) else x) cs)
  = column c cs.
Proof.
  intros Hne. induction cs as [|[n ws] cs IH]; cbn; [reflexivity|].
  destruct (decide (n = col)) as [->|Hn]; cbn.
  - rewrite !decide_False by congruence. exact IH.
  - destruct (decide (n = c)); [reflexivity|exact IH].
Qed.

Lemma column_app_other (col c : text) (vs : list value)
  (cs : list (text * list value)) :
  c <> col -> column c (cs ++ [(col, vs)]) = column c cs.
Proof.
  intros Hne. induction cs as [|[n ws] cs IH]; cbn.
  - rewrite decide_False by congruence. reflexivity.
  - destruct (decide (n = c)); [reflexivity|exact IH].
Qed.

(** [df[col] = vs] leaves the columns with another label alone. *)
Lemma set_column_other (col c : text) (vs : list value)
  (cs : list (text * list value)) :
  c <> col -> column c (set_column col vs cs) = column c cs.
Proof.
  intros Hne. unfold set_column. destruct (decide (col ∈ cs.*1)).
  - apply column_map_other. exact Hne.
  - apply column_app_other. exact Hne.
Qed.

Lemma set_column_lengths (n : nat) (col : text) (vs : list value)
  (cs : list (text * list value)) :
  length vs = n ->
  Forall (fun c => length c.2 = n) cs ->
  Forall (fun c => length c.2 = n) (set_column col vs cs).
Proof.
  intros Hvs Hcs. unfold set_column.
  destruct (decide (col ∈ cs.*1)) as [Hin|Hnotin].
  - clear Hin. induction Hcs as [|c cs Hc _ IH]; cbn; constructor.
    + destruct (decide (c.1 = col)); [exact Hvs|exact Hc].
    + exact IH.
  - apply Forall_app. split; [exact Hcs|]. constructor; [exact Hvs|constructor].
Qed.

(** [apply] keeps the length of the series. *)
Lemma series_apply_length (func : value -> result value) (vs rs : list value) :
  series_apply func vs = Return rs -> length rs = length vs.
Proof.
  revert rs. induction vs as [|v vs IH]; cbn; intros rs Hrun.
  - injection Hrun as <-. reflexivity.
  - destruct (func v) as [r|e]; cbn in Hrun; [|discriminate].
    destruct (series_apply func vs) as [rs'|e]; cbn in Hrun; [|discriminate].
    injection Hrun as <-. cbn. f_equal. apply IH. reflexivity.
Qed.

(** *** One column, then the loop *)

Lemma processed_from_refl (C : list text) (T : frame) :
  frame_wf T -> processed_from C T T.
Proof. intros Hwf. repeat split; [exact Hwf]. Qed.

(** One turn of the loop of [_process_columns] always completes, touches
    only the copy, and keeps [processed_from]. *)
Lemma process_column_step (P : value -> result value) (C : list text)
  (T : frame) (l' : loc) (col : text) (st : state) (Ti : frame) :
  col ∈ C ->
  frames st !! l' = Some Ti ->
  processed_from C T Ti ->
  exists (Tj : frame) (out : list text),
    process_column P (PFrame l') col st
    = (Return tt, State (<[l' := Tj]> (frames st)) out)
    /\ processed_from C T Tj.
Proof.
  intros Hcol Hl' (Hlab & Hout & Hrows & Hwf).
  unfold process_column, try_except, py_columns, bind, deref, ret.
  rewrite Hl'.
  destruct (decide (col ∈ labels Ti)) as [Hin|Hnotin].
  - destruct (column_is_Some col (columns Ti) Hin) as (vs & Hvs & Hmem).
    unfold py_getitem, bind, deref, ret. rewrite Hl', Hvs. unfold lift.
    destruct (series_apply P vs) as [cleaned|e] eqn:Happly.
    + unfold py_setitem, bind, deref, store. rewrite Hl'.
      eexists (Frame (nrows Ti) (set_column col cleaned (columns Ti))), _.
      split; [reflexivity|].
      repeat split; cbn.
      * unfold labels in *. cbn. rewrite set_column_labels by exact Hin.
        exact Hlab.
      * intros c Hc. rewrite set_column_other; [apply Hout; exact Hc|].
        intros ->. contradiction.
      * exact Hrows.
      * unfold frame_wf. cbn. apply set_column_lengths; [|exact Hwf].
        rewrite (series_apply_length P vs cleaned Happly).
        unfold frame_wf in Hwf. rewrite Forall_forall in Hwf.
        apply (Hwf (col, vs)). exact Hmem.
    + unfold print. cbn. exists Ti. eexists. split.
      * rewrite insert_id by exact Hl'. reflexivity.
      * repeat split; assumption.
  - unfold print. cbn. exists Ti. eexists. split.
    + rewrite insert_id by exact Hl'. reflexivity.
    + repeat split; assumption.
Qed.

(** The loop over any part [cols] of the selector. *)
Lemma process_columns_loop (P : value -> result value) (C : list text)
  (T : frame) (l' : loc) (cols : list text) :
  forall (st : state) (Ti : frame),
    cols ⊆ C ->
    frames st !! l' = Some Ti ->
    processed_from C T Ti ->
    exists (Tj : frame) (out : list text),
      for_each (fun _ col => process_column P (PFrame l') col) cols tt st
      = (Return tt, State (<[l' := Tj]> (frames st)) out)
      /\ processed_from C T Tj.
Proof.
  induction cols as [|col cols IH]; intros st Ti Hsub Hl' Hinv.
  - exists Ti, (stdout st). split; [|exact Hinv].
    cbn. unfold ret. rewrite insert_id by exact Hl'. destruct st; reflexivity.
  - assert (Hcol : col ∈ C) by (apply Hsub; apply list_elem_of_here).
    destruct (process_column_step P C T l' col st Ti Hcol Hl' Hinv)
      as (Tj & out & Hstep & Hinv').
    destruct (IH (State (<[l' := Tj]> (frames st)) out) Tj) as (Tk & out' & Hrest & Hinv'').
    + intros x Hx. apply Hsub. apply list_elem_of_further. exact Hx.
    + cbn. apply lookup_insert_eq.
    + exact Hinv'.
    + exists Tk, out'. split; [|exact Hinv''].
      cbn [for_each]. unfold bind at 1. rewrite Hstep, Hrest.
      cbn. rewrite insert_insert_eq. reflexivity.
Qed.

(** C1, as the code has it. For every table, every non-empty list of
    column names and every per-value function, [_process_columns]
    returns a new table, leaves the caller's table as it was, leaves the
    columns whose name is not selected identical, and keeps the row
    count. *)
Theorem process_columns_frame (st : state) (l : loc) (T : frame)
  (C : list text) (P : value -> result value) :
  frames st !! l = Some T ->
  frame_wf T ->
  C <> [] ->
  process_frame_property st l T C P.
Proof.
  intros Hl Hwf Hne.
  set (l' := fresh (dom (frames st))).
  assert (Hfresh : frames st !! l' = None).
  { apply not_elem_of_dom. apply is_fresh. }
  set (st1 := State (<[l' := T]> (frames st)) (stdout st)).
  destruct (process_columns_loop P C T l' C st1 T) as (T' & out & Hloop & Hinv).
  - intros x Hx. exact Hx.
  - cbn. apply lookup_insert_eq.
  - apply processed_from_refl. exact Hwf.
  - destruct Hinv as (Hlab & Hout & Hrows & Hwf').
    exists l', (State (<[l' := T']> (frames st)) out), T'.
    assert (Hll' : l <> l') by (intros ->; congruence).
    repeat split; try assumption.
    + unfold _process_columns, _validate_inputs.
      destruct C as [|c C']; [contradiction|].
      unfold bind at 1. unfold ret at 1.
      unfold bind at 1. unfold py_copy, bind, deref, alloc, ret.
      rewrite Hl. fold l'. unfold py_iter. fold st1.
      unfold ret. cbv beta iota. rewrite Hloop.
      cbn. rewrite insert_insert_eq. reflexivity.
    + intros k Hk. cbn. apply lookup_insert_ne. congruence.
    + cbn. rewrite lookup_insert_ne by congruence. exact Hl.
    + cbn. apply lookup_insert_eq.
Qed.

(** *** Validation *)

(** Every operation built on [_process_columns] validates before it
    copies. *)
Lemma process_columns_validates (P : value -> result value) :
  validates_eagerly (fun df col_names => _process_columns df col_names P).
Proof.
  unfold validates_eagerly, _process_columns, _validate_inputs, bind, raise.
  repeat split.
  - intros df col_names st Hdf.
    destruct df as [l| |]; [destruct (Hdf l eq_refl)| |]; eexists; reflexivity.
  - intros l col_names st Hcols.
    destruct col_names as [k|items|]; [|destruct (Hcols items eq_refl)|];
      eexists; reflexivity.
  - intros l st. eexists. reflexivity.
Qed.

Lemma main_clean_with_validates (func : value -> M value) :
  validates_eagerly (Main.clean_with func).
Proof.
  unfold validates_eagerly, Main.clean_with, Main.validate, bind, raise.
  repeat split.
  - intros df col_names st Hdf.
    destruct df as [l| |]; [destruct (Hdf l eq_refl)| |]; eexists; reflexivity.
  - intros l col_names st Hcols.
    destruct col_names as [k|items|]; [|destruct (Hcols items eq_refl)|];
      eexists; reflexivity.
  - intros l st. eexists. reflexivity.
Qed.

(** With an empty selector a cipher operation copies the table and
    returns the copy. *)
Lemma cipher_empty_selector (rename : text -> text)
  (cipher : value -> result value) (st : state) (l : loc) (T : frame) :
  frames st !! l = Some T ->
  (df <- py_copy (PFrame l) ;;
   cols <- py_iter (PList []) ;;
   for_each (cipher_column rename cipher) cols df)%M st
  = (Return (PFrame (fresh (dom (frames st)))),
     State (<[fresh (dom (frames st)) := T]> (frames st)) (stdout st)).
Proof.
  intros Hl. unfold bind, py_copy, py_iter, bind, deref, alloc, ret.
  rewrite Hl. reflexivity.
Qed.

Section ValidationProperties.

Context (rt : runtime).

(** C8, as the code has it. The cleaning operations, which all go
    through [_process_columns], raise [TypeError] for a table argument
    that is not a DataFrame or a selector that is not a list and
    [ValueError] for an empty selector, before anything is copied or
    printed; so do the two functions of [main.py].  [encrypt_columns] and
    [decrypt_columns] do not go through that path and check nothing:
    given a table and an empty selector they return a new copy of it. *)
Theorem cleaning_validates_cipher_copies (min_digits : Z) (code_name : text)
  (st : state) (l : loc) (T : frame) :
  frames st !! l = Some T ->
  validates_eagerly (fun df cols => clean_phone_numbers rt df cols min_digits)
  /\ validates_eagerly (clean_monetary_values rt)
  /\ validates_eagerly (clean_percentages rt)
  /\ validates_eagerly (clean_emails rt)
  /\ validates_eagerly (clean_urls rt)
  /\ validates_eagerly (clean_scientific_notation rt)
  /\ validates_eagerly (clean_roman_numerals rt)
  /\ validates_eagerly (Main.clean_phone_numbers rt)
  /\ validates_eagerly (Main.clean_monetary_values rt)
  /\ (exists l',
        frames st !! l' = None
        /\ encrypt_columns rt (PFrame l) (PList []) code_name st
           = (Return (PFrame l'), State (<[l' := T]> (frames st)) (stdout st)))
  /\ (exists l',
        frames st !! l' = None
        /\ decrypt_columns rt (PFrame l) (PList []) code_name st
           = (Return (PFrame l'), State (<[l' := T]> (frames st)) (stdout st))).
Proof.
  intros Hl.
  repeat (split; [apply process_columns_validates|]).
  repeat (split; [apply main_clean_with_validates|]).
  assert (Hfresh : frames st !! fresh (dom (frames st)) = None).
  { apply not_elem_of_dom. apply is_fresh. }
  split; exists (fresh (dom (frames st))); (split; [exact Hfresh|]);
    apply cipher_empty_selector; exact Hl.
Qed.

End ValidationProperties.

(** *** Unparsable numerals *)

Lemma dots_after_sign (s : text) :
  List.filter is_dot
    (match s with c :: r => if is_minus c then r else s | [] => [] end)
  = List.filter is_dot s.
Proof.
  destruct s as [|c r]; [reflexivity|].
  destruct (is_minus c) eqn:Hc; [|reflexivity].
  cbn. unfold is_minus in Hc. apply Z.eqb_eq in Hc as ->. reflexivity.
Qed.

(** [float] rejects a text with two points or more. *)
Lemma py_float_two_dots (rt : runtime) (s : text) :
  (2 <= length (List.filter is_dot s))%nat ->
  py_float rt s
  = Raise (Exn ValueError
             (txt "could not convert string to float: '" ++ s ++ txt "'")).
Proof.
  intros Hdots. unfold py_float, float_literal.
  rewrite dots_after_sign.
  replace (length (List.filter is_dot s) <=? 1)%nat with false
    by (symmetry; apply Nat.leb_gt; lia).
  rewrite andb_false_r. reflexivity.
Qed.

(** The percentage and money parsers of [DataCleaner] let that
    [ValueError] out, for every value whose extraction has two points or
    more; the money parser of [main.py] prints it and returns [None]. *)
Lemma unguarded_float_faults (rt : runtime) (v : value) (st : state) :
  isna v = false ->
  (2 <= length (List.filter is_dot (digits_and_dots rt (py_str rt v))))%nat ->
  let fault :=
    Exn ValueError (txt "could not convert string to float: '"
                    ++ digits_and_dots rt (py_str rt v) ++ txt "'") in
  clean_percentage rt v = Raise fault
  /\ clean_amount rt v = Raise fault
  /\ Main.extract_numbers rt v st
     = (Return VNone,
        State (frames st)
          (stdout st ++ [txt "Error processing value " ++ py_str rt v
                         ++ txt ": " ++ exn_msg fault])).
Proof.
  intros Hna Hdots fault.
  unfold Main.extract_numbers, try_except, lift, clean_percentage, clean_amount.
  rewrite Hna.
  destruct (digits_and_dots rt (py_str rt v)) as [|c cleaned] eqn:Hc.
  - cbn in Hdots. lia.
  - rewrite (py_float_two_dots rt (c :: cleaned) Hdots). cbn.
    repeat split; reflexivity.
Qed.

(* ================================================================== *)
(** ** The operations on concrete tables *)
(* ================================================================== *)

(** The examples of the docstrings, on the ASCII runtime. *)
Example docstring_examples :
  clean_phone ascii_runtime 9 (VStr (txt "+1 (234) 567-8901"))
  = Return (VStr (txt "12345678901"))
  /\ clean_phone ascii_runtime 9 (VStr (txt "123-456")) = Return VNone
  /\ clean_amount ascii_runtime (VStr (txt "$123.45"))
     = Return (VFloat (FParse (txt "123.45")))
  /\ clean_amount ascii_runtime (VStr (txt "1,234"))
     = Return (VFloat (FParse (txt "1234")))
  /\ clean_amount ascii_runtime (VStr (txt "free")) = Return VNone
  /\ clean_percentage ascii_runtime (VStr (txt "12.5%"))
     = Return (VFloat (FDiv (FParse (txt "12.5")) 100))
  /\ clean_email ascii_runtime (VStr (txt "User@Example.com "))
     = Return (VStr (txt "user@example.com"))
  /\ clean_email ascii_runtime (VStr (txt "invalid")) = Return VNone
  /\ clean_url ascii_runtime (VStr (txt "https://example.com/"))
     = Return (VStr (txt "example.com"))
  /\ clean_url ascii_runtime (VStr (txt "www.test.com"))
     = Return (VStr (txt "test.com"))
  /\ clean_scientific ascii_runtime (VStr (txt "1.23e-4"))
     = Return (VFloat (FMul (FParse (txt "1.23")) (FPow10 (FParse (txt "-4")))))
  /\ clean_scientific ascii_runtime (VStr (txt "1e3"))
     = Return (VFloat (FMul (FParse (txt "1")) (FPow10 (FParse (txt "3")))))
  /\ clean_scientific ascii_runtime (VStr (txt "invalid")) = Return VNone
  /\ clean_scientific ascii_runtime (VStr (txt "e5")) = Return VNone
  /\ clean_roman ascii_runtime (VInt 4) = Return VNone.
Proof. vm_compute. repeat split; reflexivity. Qed.

(** C1, as stated, fails for the empty list of column names: the call
    raises [ValueError] and returns no table. *)
Lemma process_columns_empty_selector :
  frames (only names) !! 0%nat = Some names
  /\ frame_wf names
  /\ (_process_columns (PFrame 0%nat) (PList []) Return (only names)).1
     = Raise (Exn ValueError (txt "Column names list cannot be empty"))
  /\ ~ process_frame_property (only names) 0%nat names [] Return.
Proof.
  split; [reflexivity|].
  split; [repeat constructor|].
  split; [reflexivity|].
  intros (l' & st' & T' & Hrun & _).
  vm_compute in Hrun. discriminate Hrun.
Qed.

Lemma process_columns_frame_witness :
  frames (only rates) !! 0%nat = Some rates
  /\ frame_wf rates
  /\ [txt "site"; txt "absent"] <> []
  /\ process_frame_property (only rates) 0%nat rates
       [txt "site"; txt "absent"] (clean_url ascii_runtime).
Proof.
  split; [reflexivity|].
  split; [repeat constructor|].
  split; [discriminate|].
  apply (process_columns_frame (only rates) 0%nat rates
           [txt "site"; txt "absent"] (clean_url ascii_runtime)).
  - reflexivity.
  - repeat constructor.
  - discriminate.
Defined.

Lemma missing_in_missing_out_witness :
  isna VNaN = true
  /\ clean_phone ascii_runtime 9 VNaN = Return VNone
  /\ clean_scientific ascii_runtime VNaN = Return VNone
  /\ _decrypt_value ascii_runtime VNaN (txt "key") = Return VNone.
Proof.
  split; [reflexivity|].
  destruct (missing_in_missing_out ascii_runtime VNaN 9 (txt "key")
              (only names) eq_refl)
    as (Hphone & _ & _ & Hsci & _ & _ & _ & _ & Hdec & _).
  split; [exact Hphone|]. split; [exact Hsci|exact Hdec].
Defined.

Lemma decrypt_encrypt_witness :
  Forall (fun c => (0 <= c < 128)%Z) (txt "Ada L.")
  /\ (x <- _encrypt_value ascii_runtime (VStr (txt "Ada L.")) (txt "key") ;;
      _decrypt_value ascii_runtime x (txt "key"))%result
     = Return (VStr (txt "Ada L.")).
Proof.
  assert (H : Forall (fun c => (0 <= c < 128)%Z) (txt "Ada L.")).
  { repeat constructor; vm_compute; discriminate. }
  split; [exact H|].
  apply (decrypt_encrypt ascii_runtime (txt "Ada L.") (txt "key") H).
Defined.

(** C4. On ["1.2.3%"] the percentage parser raises instead of returning
    [None]; [_process_columns] then skips the whole column, so the cell
    ["50%"] next to it is not converted either. *)
Theorem clean_percentage_fault_escapes :
  clean_percentage ascii_runtime (VStr (txt "1.2.3%"))
  = Raise (Exn ValueError (txt "could not convert string to float: '1.2.3'"))
  /\ clean_percentage ascii_runtime (VStr (txt "50%"))
     = Return (VFloat (FDiv (FParse (txt "50")) 100))
  /\ let r := clean_percentages ascii_runtime (PFrame 0%nat)
                (PList [txt "rate"]) (only rates) in
     returned r = Some rates
     /\ stdout r.2
        = [txt "Error processing column 'rate': could not convert string to float: '1.2.3'"].
Proof. vm_compute. repeat split; reflexivity. Qed.

(** C5. On ["1.2.3"] the money parser of [DataCleaner] raises and the
    column is skipped; the money parser of [main.py] has the guard: it
    prints the error and returns [None], and the column is cleaned. *)
Theorem clean_amount_fault_escapes :
  clean_amount ascii_runtime (VStr (txt "1.2.3"))
  = Raise (Exn ValueError (txt "could not convert string to float: '1.2.3'"))
  /\ (let r := clean_monetary_values ascii_runtime (PFrame 0%nat)
                 (PList [txt "price"]) (only prices) in
      returned r = Some prices
      /\ stdout r.2
         = [txt "Error processing column 'price': could not convert string to float: '1.2.3'"])
  /\ (let r := Main.clean_monetary_values ascii_runtime (PFrame 0%nat)
                 (PList [txt "price"]) (only prices) in
      returned r
      = Some (Frame 2 [(txt "price",
                         [VFloat (FParse (txt "123.45")); VNone])])
      /\ stdout r.2
         = [txt "Error processing value 1.2.3: could not convert string to float: '1.2.3'"]).
Proof. vm_compute. repeat split; reflexivity. Qed.

(** C6, as stated, fails: both [https://] and [www.] are removed. *)
Lemma clean_url_two_prefixes :
  clean_url ascii_runtime (VStr (txt "https://www.test.com"))
  = Return (VStr (txt "test.com"))
  /\ clean_url ascii_runtime (VStr (txt "https://www.test.com"))
     <> Return (VStr (txt "www.test.com")).
Proof. split; [reflexivity|]. vm_compute. discriminate. Qed.

(** The emptiness test comes before [rstrip('/')]: a text that is only
    slashes once the prefixes are gone comes back as the empty text. *)
Lemma clean_url_only_slashes :
  clean_url ascii_runtime (VStr (txt "http:///")) = Return (VStr [])
  /\ clean_url ascii_runtime (VStr (txt "http://")) = Return VNone.
Proof. split; reflexivity. Qed.

Lemma clean_url_prefixes_in_turn_witness :
  isna (VStr (txt " HTTP://www.Test.com// ")) = false
  /\ exists t1 t2 t3 : text,
       without_prefix (txt "http://")
         (lower ascii_runtime
            (strip (py_str ascii_runtime (VStr (txt " HTTP://www.Test.com// ")))))
         t1
       /\ without_prefix (txt "https://") t1 t2
       /\ without_prefix (txt "www.") t2 t3
       /\ (t3 = [] ->
           clean_url ascii_runtime (VStr (txt " HTTP://www.Test.com// "))
           = Return VNone)
       /\ (forall r, without_trailing_slashes t3 r -> r <> [] ->
           clean_url ascii_runtime (VStr (txt " HTTP://www.Test.com// "))
           = Return (VStr r)).
Proof.
  split; [reflexivity|].
  apply (clean_url_prefixes_in_turn ascii_runtime
           (VStr (txt " HTTP://www.Test.com// "))).
  reflexivity.
Defined.

Lemma clean_roman_subtractive_witness :
  isna (VStr (txt "IV")) = false
  /\ clean_roman ascii_runtime (VStr (txt "IV")) = Return (VInt 4)
  /\ clean_roman ascii_runtime (VStr (txt "XII")) = Return (VInt 12)
  /\ clean_roman ascii_runtime (VStr (txt "ABC")) = Return VNone
  /\ clean_roman ascii_runtime (VStr (txt "IIII")) = Return (VInt 4)
  /\ clean_roman ascii_runtime (VStr (txt "VX")) = Return (VInt 5).
Proof.
  split; [reflexivity|].
  pose proof (clean_roman_subtractive ascii_runtime) as Hsum.
  split; [exact (Hsum (VStr (txt "IV")) eq_refl)|].
  split; [exact (Hsum (VStr (txt "XII")) eq_refl)|].
  split; [exact (Hsum (VStr (txt "ABC")) eq_refl)|].
  split; [exact (Hsum (VStr (txt "IIII")) eq_refl)|].
  exact (Hsum (VStr (txt "VX")) eq_refl).
Defined.

Lemma clean_roman_blank_witness :
  isna (VStr (txt "  ")) = false
  /\ strip (py_str ascii_runtime (VStr (txt "  "))) = []
  /\ clean_roman ascii_runtime (VStr (txt "  ")) = Return (VInt 0).
Proof.
  split; [reflexivity|]. split; [reflexivity|].
  apply (clean_roman_blank ascii_runtime (VStr (txt "  "))); reflexivity.
Defined.

(** C8, as stated, fails for the cipher operations: given [None] for
    the table they raise [AttributeError], and given an empty selector
    they return a copy of the table. *)
Lemma encrypt_columns_unchecked :
  (encrypt_columns ascii_runtime PNone (PList [txt "name"]) (txt "key")
     (only names)).1
  = Raise (Exn AttributeError (txt "'NoneType' object has no attribute 'copy'"))
  /\ returned (encrypt_columns ascii_runtime (PFrame 0%nat) (PList [])
                 (txt "key") (only names)) = Some names
  /\ returned (decrypt_columns ascii_runtime (PFrame 0%nat) (PList [])
                 (txt "key") (only names)) = Some names
  /\ ~ validates_eagerly
         (fun df cols => encrypt_columns ascii_runtime df cols (txt "key"))
  /\ ~ validates_eagerly
         (fun df cols => decrypt_columns ascii_runtime df cols (txt "key")).
Proof.
  split; [reflexivity|]. split; [reflexivity|]. split; [reflexivity|].
  split; intros (_ & _ & Hempty);
    destruct (Hempty 0%nat (only names)) as [msg Hrun];
    vm_compute in Hrun; discriminate Hrun.
Qed.

Lemma cleaning_validates_cipher_copies_witness :
  frames (only names) !! 0%nat = Some names
  /\ validates_eagerly (clean_urls ascii_runtime)
  /\ exists l',
       frames (only names) !! l' = None
       /\ encrypt_columns ascii_runtime (PFrame 0%nat) (PList []) (txt "key")
            (only names)
          = (Return (PFrame l'),
             State (<[l' := names]> (frames (only names)))
                   (stdout (only names))).
Proof.
  split; [reflexivity|].
  destruct (cleaning_validates_cipher_copies ascii_runtime 9 (txt "key")
              (only names) 0%nat names eq_refl)
    as (_ & _ & _ & _ & Hurl & _ & _ & _ & _ & Henc & _).
  split; [exact Hurl|exact Henc].
Defined.

(** *** The cipher operations, one column at a time *)

Lemma drop_column_gone (col : text) (cs : list (text * list value)) :
  col ∉ (drop_column col cs).*1.
Proof.
  unfold drop_column. induction cs as [|[n vs] cs IH]; cbn.
  - apply not_elem_of_nil.
  - destruct (bool_decide_reflect (n = col)) as [->|Hne]; cbn; [exact IH|].
    apply not_elem_of_cons. split; [congruence|exact IH].
Qed.

Lemma drop_column_other (col c : text) (cs : list (text * list value)) :
  c <> col -> column c (drop_column col cs) = column c cs.
Proof.
  intros Hne. unfold drop_column. induction cs as [|[n vs] cs IH]; cbn.
  - reflexivity.
  - destruct (bool_decide_reflect (n = col)) as [->|Hn]; cbn.
    + rewrite decide_False by congruence. exact IH.
    + destruct (decide (n = c)); [reflexivity|exact IH].
Qed.

Lemma set_column_same (col : text) (vs : list value)
  (cs : list (text * list value)) :
  column col (set_column col vs cs) = Some vs.
Proof.
  unfold set_column. destruct (decide (col ∈ cs.*1)) as [Hin|Hnotin].
  - induction cs as [|[n ws] cs IH]; cbn.
    + apply elem_of_nil in Hin. contradiction.
    + destruct (decide (n = col)) as [->|Hne]; cbn.
      * rewrite decide_True by reflexivity. reflexivity.
      * rewrite decide_False by exact Hne.
        apply IH. cbn in Hin. apply elem_of_cons in Hin as [Heq|Hin];
          [congruence|exact Hin].
  - induction cs as [|[n ws] cs IH]; cbn.
    + rewrite decide_True by reflexivity. reflexivity.
    + cbn in Hnotin. apply not_elem_of_cons in Hnotin as [Hne Hnotin].
      rewrite decide_False by congruence. apply IH. exact Hnotin.
Qed.

Lemma set_column_mem (col c : text) (vs : list value)
  (cs : list (text * list value)) :
  c ∈ cs.*1 -> c ∈ (set_column col vs cs).*1.
Proof.
  intros Hc. unfold set_column. destruct (decide (col ∈ cs.*1)) as [Hin|Hnotin].
  - pose proof (set_column_labels col vs cs Hin) as Hlab.
    unfold set_column in Hlab. rewrite decide_True in Hlab by exact Hin.
    rewrite Hlab. exact Hc.
  - rewrite fmap_app. apply elem_of_app. left. exact Hc.
Qed.

(** A per-value function that never raises gives a whole series. *)
Lemma series_apply_total (func : value -> result value) (vs : list value) :
  (forall v, exists w, func v = Return w) ->
  exists rs, series_apply func vs = Return rs.
Proof.
  intros Hfunc. induction vs as [|v vs [rs IH]]; cbn.
  - exists []. reflexivity.
  - destruct (Hfunc v) as [w ->]. rewrite IH. exists (w :: rs). reflexivity.
Qed.

(** One turn of a cipher loop on a label the table has: the values go,
    transformed, under the new label, and the source label is gone.
    (When the new label is the source label, the column is gone.) *)
Lemma cipher_column_present (rename : text -> text)
  (cipher : value -> result value)
  (st : state) (l : loc) (T : frame) (col : text) :
  (forall v, exists w, cipher v = Return w) ->
  frames st !! l = Some T ->
  col ∈ labels T ->
  exists (l' : loc) (st' : state) (T' : frame) (vs changed : list value),
    cipher_column rename cipher (PFrame l) col st = (Return (PFrame l'), st')
    /\ frames st' !! l' = Some T'
    /\ stdout st' = stdout st
    /\ column col (columns T) = Some vs
    /\ series_apply cipher vs = Return changed
    /\ (col ∉ labels T')
    /\ (rename col <> col ->
        column (rename col) (columns T') = Some changed)
    /\ (forall c, c <> col -> c <> rename col ->
        column c (columns T') = column c (columns T)).
Proof.
  intros Htotal Hl Hin.
  destruct (column_is_Some col (columns T) Hin) as (vs & Hvs & _).
  destruct (series_apply_total cipher vs Htotal) as [changed Hchanged].
  set (T1 := Frame (nrows T) (set_column (rename col) changed (columns T))).
  set (st1 := State (<[l := T1]> (frames st)) (stdout st)).
  set (T2 := Frame (nrows T1) (drop_column col (columns T1))).
  exists (fresh (dom (frames st1))),
    (State (<[fresh (dom (frames st1)) := T2]> (frames st1)) (stdout st)),
    T2, vs, changed.
  split; [|split; [|split; [|split; [|split; [|split; [|split]]]]]].
  - unfold cipher_column, py_columns, bind, deref, ret. rewrite Hl.
    rewrite decide_True by exact Hin.
    unfold py_getitem, bind, deref, ret. rewrite Hl, Hvs. unfold lift.
    rewrite Hchanged.
    unfold py_setitem, bind, deref, store. rewrite Hl.
    fold T1. fold st1.
    unfold py_drop, bind, deref, alloc, ret.
    assert (Hl1 : frames st1 !! l = Some T1) by apply lookup_insert_eq.
    rewrite Hl1.
    rewrite decide_True; [reflexivity|].
    unfold labels, T1. cbn [columns]. apply set_column_mem. exact Hin.
  - cbn. apply lookup_insert_eq.
  - reflexivity.
  - exact Hvs.
  - exact Hchanged.
  - unfold labels, T2. cbn [columns]. apply drop_column_gone.
  - intros Hne. unfold T2, T1. cbn [columns].
    rewrite drop_column_other by exact Hne. apply set_column_same.
  - intros c Hc Hc'. unfold T2, T1. cbn [columns].
    rewrite drop_column_other by exact Hc.
    apply set_column_other. exact Hc'.
Qed.

Lemma encrypted_label_new (col : text) : col ++ txt "_encrypted" <> col.
Proof.
  intros Heq. apply (f_equal length) in Heq.
  rewrite length_app in Heq. cbn in Heq. lia.
Qed.

(** For [encrypt_columns] the new label is never the source label: a
    selected column the table has comes back encrypted under
    [<name>_encrypted], and the source column is removed. *)
Lemma encrypt_column_present (rt : runtime) (code_name : text)
  (st : state) (l : loc) (T : frame) (col : text) :
  frames st !! l = Some T ->
  col ∈ labels T ->
  exists (l' : loc) (st' : state) (T' : frame) (vs changed : list value),
    cipher_column (fun col => col ++ txt "_encrypted")
      (fun x => _encrypt_value rt x code_name) (PFrame l) col st
    = (Return (PFrame l'), st')
    /\ frames st' !! l' = Some T'
    /\ column col (columns T) = Some vs
    /\ series_apply (fun x => _encrypt_value rt x code_name) vs = Return changed
    /\ (col ∉ labels T')
    /\ column (col ++ txt "_encrypted") (columns T') = Some changed.
Proof.
  intros Hl Hin.
  destruct (cipher_column_present (fun col => col ++ txt "_encrypted")
              (fun x => _encrypt_value rt x code_name) st l T col)
    as (l' & st' & T' & vs & changed & Hrun & Hl' & _ & Hvs & Hch & Hgone & Hnew & _);
    [|exact Hl|exact Hin|].
  - intros v. unfold _encrypt_value. destruct (isna v); eexists; reflexivity.
  - exists l', st', T', vs, changed.
    repeat (split; [assumption|]). apply Hnew. apply encrypted_label_new.
Qed.


(** C9. [decrypt_columns] names the new column with [str.replace], which
    removes every ['_encrypted'] of the label and not only the one at its
    end: the column left by encrypting [name] twice comes back as [name],
    not as [name_encrypted]. *)
Theorem decrypt_removes_every_marker :
  labels <$> returned (encrypt_twice ascii_runtime (only names))
  = Some [txt "name_encrypted_encrypted"]
  /\ labels <$> returned (encrypt_twice_decrypt_once ascii_runtime (only names))
     = Some [txt "name"]
  /\ labels <$> returned
                  (decrypt_columns ascii_runtime (PFrame 0%nat)
                     (PList [txt "name_encrypted_encrypted"]) (txt "key")
                     (only twice_encrypted))
     = Some [txt "name"]
  /\ remove_all (txt "_encrypted") (txt "name_encrypted_encrypted")
     <> txt "name_encrypted".
Proof.
  vm_compute. repeat split; try reflexivity. discriminate.
Qed.

(* ================================================================== *)
(** ** Further properties of the parsers *)
(* ================================================================== *)

Lemma filter_all {A} (p : A -> bool) (l : list A) :
  forallb p (List.filter p l) = true.
Proof.
  induction l as [|x l IH]; cbn; [reflexivity|].
  destruct (p x) eqn:Hx; cbn; [rewrite Hx|]; exact IH.
Qed.

Lemma filter_kept {A} (p : A -> bool) (l : list A) :
  forallb p l = true -> List.filter p l = l.
Proof.
  induction l as [|x l IH]; cbn; [reflexivity|].
  intros Hall. apply andb_true_iff in Hall as [Hx Hl].
  rewrite Hx, IH by exact Hl. reflexivity.
Qed.

Lemma filter_twice {A} (p : A -> bool) (l : list A) :
  List.filter p (List.filter p l) = List.filter p l.
Proof. apply filter_kept. apply filter_all. Qed.

Section MoreParserProperties.

Context (rt : runtime).


(** X2. Cleaning a cleaned phone number changes nothing. *)
Theorem clean_phone_idempotent (min_digits : Z) (v : value) :
  (r <- clean_phone rt min_digits v ;; clean_phone rt min_digits r)%result
  = clean_phone rt min_digits v.
Proof.
  unfold clean_phone at 1 3. destruct (isna v); [reflexivity|].
  destruct (min_digits <=? _)%Z eqn:Hle; [|reflexivity].
  cbn. rewrite filter_twice, Hle. reflexivity.
Qed.

(** X3. The money and percentage parsers look at digits and points only:
    any other character, a minus sign or a thousands separator for
    instance, can be taken out of the text without changing the result. *)
Theorem amount_ignores_other_characters (s1 s2 : text) (c : Z) :
  isdigit rt c = false ->
  c <> 46%Z ->
  clean_amount rt (VStr (s1 ++ c :: s2)) = clean_amount rt (VStr (s1 ++ s2))
  /\ clean_percentage rt (VStr (s1 ++ c :: s2))
     = clean_percentage rt (VStr (s1 ++ s2)).
Proof.
  intros Hdigit Hdot.
  assert (Hsame : digits_and_dots rt (s1 ++ c :: s2)
                  = digits_and_dots rt (s1 ++ s2)).
  { unfold digits_and_dots. rewrite !List.filter_app. cbn.
    rewrite Hdigit. unfold is_dot.
    destruct (Z.eqb_spec c 46); [contradiction|reflexivity]. }
  unfold clean_amount, clean_percentage. cbn [isna py_str].
  rewrite Hsame. split; reflexivity.
Qed.

(** X4. With an exponent marker in the text the scientific-notation parser
    never raises; without one it calls [float] unguarded, and a text
    whose digits and points hold two points or more raises
    [ValueError]. *)
Theorem clean_scientific_guard (v : value) :
  isna v = false ->
  (contains 101 (lower rt (py_str rt v)) = true ->
   exists r, clean_scientific rt v = Return r)
  /\ (contains 101 (lower rt (py_str rt v)) = false ->
      (2 <= length (List.filter is_dot
                      (digits_and_dots rt (lower rt (py_str rt v)))))%nat ->
      clean_scientific rt v
      = Raise (Exn ValueError
                 (txt "could not convert string to float: '"
                  ++ digits_and_dots rt (lower rt (py_str rt v)) ++ txt "'"))).
Proof.
  intros Hna. unfold clean_scientific. rewrite Hna. split.
  - intros ->. destruct (scientific_try rt _); eauto.
  - intros -> Hdots.
    destruct (digits_and_dots rt (lower rt (py_str rt v))) as [|c cleaned] eqn:Hc.
    + cbn in Hdots. lia.
    + rewrite (py_float_two_dots rt (c :: cleaned) Hdots). reflexivity.
Qed.

(** X5. A cleaned URL never ends with a slash. *)
Theorem clean_url_no_trailing_slash (v : value) (s : text) :
  clean_url rt v = Return (VStr s) -> last s <> Some 47%Z.
Proof.
  unfold clean_url. destruct (isna v); [discriminate|].
  destruct (fold_left strip_prefix url_prefixes _) as [|c t]; [discriminate|].
  intros Hrun. injection Hrun as <-.
  unfold rstrip_slash, rstrip_by. rewrite last_reverse.
  generalize (reverse (c :: t)). intros u.
  induction u as [|d u IH]; cbn [lstrip_by]; [discriminate|].
  destruct (Z.eqb_spec 47 d) as [<-|Hd]; [exact IH|].
  cbn [head]. intros Heq. injection Heq as Heq. lia.
Qed.

End MoreParserProperties.

(* ================================================================== *)
(** ** Further properties of the cipher and of Roman numerals *)
(* ================================================================== *)

Lemma numeric_key_app (k1 k2 : text) :
  numeric_key (k1 ++ k2) = (numeric_key k1 + numeric_key k2)%Z.
Proof.
  unfold numeric_key. induction k1 as [|c k1 IH]; cbn; [reflexivity|].
  rewrite IH. lia.
Qed.

Section CipherProperties.

Context (rt : runtime).

(** X6. Whatever the value and the key, an encrypted or decrypted value is a
    text as long as the textual form of the input, with every code point
    in 0..127. *)
Theorem cipher_output_seven_bit (v : value) (k : text) :
  isna v = false ->
  (exists s, _encrypt_value rt v k = Return (VStr s)
             /\ length s = length (py_str rt v)
             /\ Forall (fun c => (0 <= c < 128)%Z) s)
  /\ (exists s, _decrypt_value rt v k = Return (VStr s)
                /\ length s = length (py_str rt v)
                /\ Forall (fun c => (0 <= c < 128)%Z) s).
Proof.
  intros Hna. unfold _encrypt_value, _decrypt_value. rewrite Hna.
  split; eexists; (split; [reflexivity|]); (split; [apply length_map|]);
    apply Forall_forall; intros c Hc; apply list_elem_of_In in Hc;
    apply in_map_iff in Hc as (d & <- & _); apply Z.mod_pos_bound; lia.
Qed.

(** X7. Encrypting with one key and then with another is encrypting once
    with the two keys put end to end; likewise for decrypting. *)
Theorem cipher_keys_compose (v : value) (k1 k2 : text) :
  (x <- _encrypt_value rt v k1 ;; _encrypt_value rt x k2)%result
  = _encrypt_value rt v (k1 ++ k2)
  /\ (x <- _decrypt_value rt v k1 ;; _decrypt_value rt x k2)%result
     = _decrypt_value rt v (k1 ++ k2).
Proof.
  unfold _encrypt_value, _decrypt_value.
  destruct (isna v) eqn:Hna; [split; reflexivity|].
  cbn. rewrite numeric_key_app, !map_map.
  split; do 2 f_equal; apply map_ext; intros c.
  - rewrite Zplus_mod_idemp_l. f_equal. lia.
  - rewrite Zminus_mod_idemp_l. f_equal. lia.
Qed.

(** X8. Decrypting what was encrypted, or encrypting what was decrypted,
    with the same key, gives every code point of the textual form
    reduced modulo 128: text outside 0..127 does not come back. *)
Theorem cipher_round_trip_mod (v : value) (k : text) :
  isna v = false ->
  (x <- _encrypt_value rt v k ;; _decrypt_value rt x k)%result
  = Return (VStr (map (fun c => c mod 128)%Z (py_str rt v)))
  /\ (x <- _decrypt_value rt v k ;; _encrypt_value rt x k)%result
     = Return (VStr (map (fun c => c mod 128)%Z (py_str rt v))).
Proof.
  intros Hna. unfold _encrypt_value, _decrypt_value. rewrite Hna. cbn.
  rewrite !map_map.
  split; do 2 f_equal; apply map_ext; intros c.
  - rewrite Zminus_mod_idemp_l. f_equal. lia.
  - rewrite Zplus_mod_idemp_l. f_equal. lia.
Qed.

(** X9. Two keys whose code points have the same sum modulo 128 encrypt and
    decrypt alike: the letters of a key in another order, for instance. *)
Theorem cipher_key_sum_only (v : value) (k1 k2 : text) :
  (numeric_key k1 mod 128 = numeric_key k2 mod 128)%Z ->
  _encrypt_value rt v k1 = _encrypt_value rt v k2
  /\ _decrypt_value rt v k1 = _decrypt_value rt v k2.
Proof.
  intros Hsum. unfold _encrypt_value, _decrypt_value.
  destruct (isna v); [split; reflexivity|].
  split; do 2 f_equal; apply map_ext; intros c.
  - rewrite Zplus_mod, Hsum, <- Zplus_mod. reflexivity.
  - rewrite Zminus_mod, Hsum, <- Zminus_mod. reflexivity.
Qed.

End CipherProperties.

Lemma symbol_value_is_ok (c : Z) :
  is_roman_symbol c = true -> symbol_value_ok (symbol_value c).
Proof.
  unfold is_roman_symbol, symbol_value, symbol_value_ok, contains.
  change roman_symbols with [73; 86; 88; 76; 67; 68; 77]%Z.
  cbn [existsb].
  destruct (c =? 73)%Z; [tauto|].
  destruct (c =? 86)%Z; [tauto|].
  destruct (c =? 88)%Z; [tauto|].
  destruct (c =? 76)%Z; [tauto|].
  destruct (c =? 67)%Z; [tauto|].
  destruct (c =? 68)%Z; [tauto|].
  destruct (c =? 77)%Z; [tauto|].
  discriminate.
Qed.

Lemma lesser_sum_below (v : Z) : symbol_value_ok v -> (lesser_sum v < v)%Z.
Proof.
  unfold symbol_value_ok.
  intros [->|[->|[->|[->|[->|[->| ->]]]]]]; reflexivity.
Qed.

Lemma lesser_sum_step (v n : Z) :
  symbol_value_ok v -> symbol_value_ok n -> (v < n)%Z ->
  (lesser_sum v + v <= lesser_sum n)%Z.
Proof.
  unfold symbol_value_ok.
  intros [->|[->|[->|[->|[->|[->| ->]]]]]] [->|[->|[->|[->|[->|[->| ->]]]]]] Hlt;
    try (exfalso; lia); vm_compute; discriminate.
Qed.

Lemma lesser_sum_nonneg (v : Z) : (0 <= lesser_sum v)%Z.
Proof.
  unfold lesser_sum.
  repeat match goal with |- context [if ?b then _ else _] => destruct b end;
    lia.
Qed.

(** A run of rising values never subtracts as much as its top adds. *)
Lemma subtractive_sum_above (v : Z) (rest : list Z) :
  Forall symbol_value_ok (v :: rest) ->
  (lesser_sum v < subtractive_sum (v :: rest))%Z.
Proof.
  revert v. induction rest as [|n rest IH]; intros v Hok.
  - cbn. apply Forall_cons_1 in Hok as [Hv _].
    pose proof (lesser_sum_below v Hv). lia.
  - apply Forall_cons_1 in Hok as [Hv Hrest].
    pose proof (IH n Hrest) as Hn.
    pose proof Hrest as Hn'. apply Forall_cons_1 in Hn' as [Hn' _].
    cbn [subtractive_sum] in *.
    remember (match rest with
              | [] => n
              | next :: _ => if (n <? next)%Z then (- n)%Z else n
              end + subtractive_sum rest)%Z as F eqn:HF.
    clear HF.
    pose proof (lesser_sum_below v Hv).
    pose proof (lesser_sum_nonneg n).
    destruct (Z.ltb_spec v n) as [Hlt|Hge].
    + pose proof (lesser_sum_step v n Hv Hn' Hlt). lia.
    + lia.
Qed.

Lemma subtractive_sum_at_most (vs : list Z) :
  Forall symbol_value_ok vs ->
  (subtractive_sum vs <= 1000 * Z.of_nat (length vs))%Z.
Proof.
  induction 1 as [|v rest Hv _ IH]; [cbn; lia|].
  cbn [subtractive_sum length].
  assert (Hv' : (1 <= v <= 1000)%Z) by (unfold symbol_value_ok in Hv; lia).
  destruct rest as [|n rest']; [cbn in *; lia|].
  destruct (v <? n)%Z; lia.
Qed.

Section MoreRomanProperties.

Context (rt : runtime).

(** X11. An accepted numeral that is not blank is worth at least 1 and at
    most 1000 for each of its symbols, whatever the order of the
    symbols: only a blank input gives 0, and no input gives a negative
    number. *)
Theorem clean_roman_positive (v : value) :
  isna v = false ->
  upper rt (strip (py_str rt v)) <> [] ->
  forallb is_roman_symbol (upper rt (strip (py_str rt v))) = true ->
  exists n,
    clean_roman rt v = Return (VInt n)
    /\ (1 <= n <= 1000 * Z.of_nat (length (upper rt (strip (py_str rt v)))))%Z.
Proof.
  intros Hna Hne Hall.
  assert (Hrun : clean_roman rt v
                 = Return (VInt (subtractive_sum
                                   (map symbol_value
                                      (upper rt (strip (py_str rt v))))))).
  { unfold clean_roman. rewrite Hna. cbv zeta.
    rewrite (forallb_pointwise _ _ _ in_roman_values_symbol), Hall.
    cbn [negb].
    pose proof (roman_loop_from _ [] 0%Z Hall) as Hloop.
    cbn [app length] in Hloop. rewrite Hloop. reflexivity. }
  eexists. split; [exact Hrun|]. clear Hrun.
  set (roman := upper rt (strip (py_str rt v))) in *.
  assert (Hok : Forall symbol_value_ok (map symbol_value roman)).
  { apply Forall_forall. intros x Hx. apply list_elem_of_In in Hx.
    apply in_map_iff in Hx as (c & <- & Hc).
    apply symbol_value_is_ok.
    rewrite forallb_forall in Hall. apply Hall. exact Hc. }
  split.
  - destruct roman as [|c roman']; [contradiction|].
    cbn [map] in *.
    pose proof (subtractive_sum_above _ _ Hok).
    pose proof (lesser_sum_nonneg (symbol_value c)). lia.
  - pose proof (subtractive_sum_at_most _ Hok) as Hmax.
    rewrite length_map in Hmax. exact Hmax.
Qed.

End MoreRomanProperties.

(* ================================================================== *)
(** ** Further properties of the cipher operations *)
(* ================================================================== *)




Section CipherOperationProperties.

Context (rt : runtime).




End CipherOperationProperties.

(** *** Encrypting a column and decrypting it again *)





Section ColumnRoundTrip.

Context (rt : runtime).




End ColumnRoundTrip.

(* ================================================================== *)
(** ** What the column engine computes and prints *)
(* ================================================================== *)







(* ================================================================== *)
(** ** The two functions of main.py *)
(* ================================================================== *)

Section MainEngine.

(** A per-value function that never raises and only prints: [g] is what
    it returns and [m] what it prints. *)
Variable func : value -> M value.
Variable g : value -> value.
Variable m : value -> list text.
Hypothesis func_prints :
  forall v st, func v st = (Return (g v), State (frames st) (stdout st ++ m v)).





End MainEngine.

Section MainProperties.

Context (rt : runtime).




End MainProperties.

(* ================================================================== *)
(** ** The further properties on concrete inputs *)
(* ================================================================== *)

Lemma amount_ignores_other_characters_witness :
  isdigit ascii_runtime 45 = false
  /\ 45%Z <> 46%Z
  /\ clean_amount ascii_runtime (VStr ([] ++ 45%Z :: txt "5.50"))
     = clean_amount ascii_runtime (VStr ([] ++ txt "5.50"))
  /\ clean_percentage ascii_runtime (VStr ([] ++ 45%Z :: txt "5.50"))
     = clean_percentage ascii_runtime (VStr ([] ++ txt "5.50")).
Proof.
  split; [reflexivity|]. split; [discriminate|].
  apply (amount_ignores_other_characters ascii_runtime [] (txt "5.50") 45%Z).
  - reflexivity.
  - discriminate.
Defined.

Lemma clean_scientific_guard_witness :
  isna (VStr (txt "1.2.3")) = false
  /\ contains 101 (lower ascii_runtime (py_str ascii_runtime (VStr (txt "1.2.3"))))
     = false
  /\ clean_scientific ascii_runtime (VStr (txt "1.2.3"))
     = Raise (Exn ValueError (txt "could not convert string to float: '1.2.3'")).
Proof.
  split; [reflexivity|]. split; [reflexivity|].
  destruct (clean_scientific_guard ascii_runtime (VStr (txt "1.2.3")) eq_refl)
    as [_ Hraise].
  apply Hraise.
  - reflexivity.
  - vm_compute. lia.
Defined.

Lemma clean_url_no_trailing_slash_witness :
  clean_url ascii_runtime (VStr (txt "https://example.com//"))
  = Return (VStr (txt "example.com"))
  /\ last (txt "example.com") <> Some 47%Z.
Proof.
  split; [reflexivity|].
  apply (clean_url_no_trailing_slash ascii_runtime
           (VStr (txt "https://example.com//")) (txt "example.com")).
  reflexivity.
Defined.

Lemma cipher_output_seven_bit_witness :
  isna (VStr [233; 8364]%Z) = false
  /\ exists s, _encrypt_value ascii_runtime (VStr [233; 8364]%Z) (txt "key")
               = Return (VStr s)
               /\ length s = length (py_str ascii_runtime (VStr [233; 8364]%Z))
               /\ Forall (fun c => (0 <= c < 128)%Z) s.
Proof.
  split; [reflexivity|].
  apply (cipher_output_seven_bit ascii_runtime (VStr [233; 8364]%Z) (txt "key")).
  reflexivity.
Defined.

Lemma cipher_round_trip_mod_witness :
  isna (VStr [233; 65]%Z) = false
  /\ (x <- _encrypt_value ascii_runtime (VStr [233; 65]%Z) (txt "key") ;;
      _decrypt_value ascii_runtime x (txt "key"))%result
     = Return (VStr [105; 65]%Z).
Proof.
  split; [reflexivity|].
  apply (cipher_round_trip_mod ascii_runtime (VStr [233; 65]%Z) (txt "key")).
  reflexivity.
Defined.

Lemma cipher_key_sum_only_witness :
  (numeric_key (txt "listen") mod 128 = numeric_key (txt "silent") mod 128)%Z
  /\ _encrypt_value ascii_runtime (VStr (txt "Ada")) (txt "listen")
     = _encrypt_value ascii_runtime (VStr (txt "Ada")) (txt "silent").
Proof.
  split; [reflexivity|].
  apply (cipher_key_sum_only ascii_runtime (VStr (txt "Ada"))
           (txt "listen") (txt "silent")).
  reflexivity.
Defined.

Lemma clean_roman_positive_witness :
  isna (VStr (txt " ixc ")) = false
  /\ upper ascii_runtime (strip (py_str ascii_runtime (VStr (txt " ixc ")))) <> []
  /\ forallb is_roman_symbol
       (upper ascii_runtime (strip (py_str ascii_runtime (VStr (txt " ixc ")))))
     = true
  /\ exists n,
       clean_roman ascii_runtime (VStr (txt " ixc ")) = Return (VInt n)
       /\ (1 <= n
           <= 1000 * Z.of_nat
                       (length (upper ascii_runtime
                                  (strip (py_str ascii_runtime
                                            (VStr (txt " ixc ")))))))%Z.
Proof.
  split; [reflexivity|]. split; [discriminate|]. split; [reflexivity|].
  apply (clean_roman_positive ascii_runtime (VStr (txt " ixc "))).
  - reflexivity.
  - discriminate.
  - reflexivity.
Defined.









(* ================================================================== *)
(** ** Edge cases of the cipher *)
(* ================================================================== *)


Section CipherEdgeCases.

Context (rt : runtime).

(** X10. A key whose code points sum to a multiple of 128, the empty key
    first of all, encrypts nothing: a text with code points in 0..127
    comes out as it went in. *)
Theorem weak_key_is_identity (s k : text) :
  (numeric_key k mod 128 = 0)%Z ->
  Forall (fun c => (0 <= c < 128)%Z) s ->
  _encrypt_value rt (VStr s) k = Return (VStr s)
  /\ _decrypt_value rt (VStr s) k = Return (VStr s).
Proof.
  intros Hkey Hs. unfold _encrypt_value, _decrypt_value. cbn.
  split; do 2 f_equal.
  - induction Hs as [|c s Hc _ IH]; cbn; [reflexivity|].
    rewrite IH. f_equal.
    rewrite Zplus_mod, Hkey, Z.add_0_r, Z.mod_mod by lia.
    apply Z.mod_small. exact Hc.
  - induction Hs as [|c s Hc _ IH]; cbn; [reflexivity|].
    rewrite IH. f_equal.
    rewrite Zminus_mod, Hkey, Z.sub_0_r, Z.mod_mod by lia.
    apply Z.mod_small. exact Hc.
Qed.


End CipherEdgeCases.

Lemma weak_key_is_identity_witness :
  (numeric_key (txt "@@") mod 128 = 0)%Z
  /\ Forall (fun c => (0 <= c < 128)%Z) (txt "Ada")
  /\ _encrypt_value ascii_runtime (VStr (txt "Ada")) (txt "@@")
     = Return (VStr (txt "Ada")).
Proof.
  assert (Hs : Forall (fun c => (0 <= c < 128)%Z) (txt "Ada")).
  { repeat constructor; vm_compute; discriminate. }
  split; [reflexivity|]. split; [exact Hs|].
  apply (weak_key_is_identity ascii_runtime (txt "Ada") (txt "@@")).
  - reflexivity.
  - exact Hs.
Defined.


